(** * Schema-directed decoding of wire messages into dataclasses

    A shallow embedding of [marimo/_utils/parse_dataclass.py]: the key
    normaliser [to_snake], the recursive, type-directed decoder
    [DataclassParser._build_value] and the record decoder
    [DataclassParser.build_dataclass].

    Python objects are rendered as the inductive [pyobj]; [typing]
    annotations as the inductive [ty]; a raised exception as the [Raise]
    branch of [result]. *)

From Stdlib Require Import ZArith List String Ascii Bool.
From Stdlib Require Import Floats.SpecFloat.
From Stdlib Require Import DecimalString.
Import ListNotations.

Set Warnings "-register-all".

Local Open Scope string_scope.
Local Open Scope Z_scope.

(** ** Strings

    A Python [str] is rendered as a [string] of 8-bit characters.  The
    development covers the strings of ASCII characters, [is_ascii]: on
    these [str.isupper] of a one-character string holds exactly for the
    letters A to Z, and [str.lower] adds 32 to the code of such a letter
    and leaves every other character alone.  For the other characters
    Python consults the Unicode database, which is not embedded here;
    what is stated about the shape of a normalized key is stated for
    ASCII keys. *)

Module Str.

Definition isupper (c : ascii) : bool :=
  let n := nat_of_ascii c in (Nat.leb 65 n && Nat.leb n 90)%bool.

Definition lower (c : ascii) : ascii :=
  if isupper c then ascii_of_nat (nat_of_ascii c + 32) else c.

Definition underscore : ascii := "_"%char.

(** [c.isascii()] and [s.isascii()] *)
Definition is_ascii_char (c : ascii) : bool := Nat.ltb (nat_of_ascii c) 128.

Fixpoint is_ascii (s : string) : bool :=
  match s with
  | EmptyString => true
  | String c s' => (is_ascii_char c && is_ascii s')%bool
  end.

(** [s.lstrip("_")] *)
Fixpoint lstrip_underscore (s : string) : string :=
  match s with
  | String c s' => if Ascii.eqb c underscore then lstrip_underscore s' else s
  | EmptyString => EmptyString
  end.

(** [s.startswith("_")] *)
Definition startswith_underscore (s : string) : bool :=
  match s with
  | String c _ => Ascii.eqb c underscore
  | EmptyString => false
  end.

(** [["_" + i.lower() if i.isupper() else i for i in string]] *)
Fixpoint snake_pieces (s : string) : list string :=
  match s with
  | EmptyString => []
  | String i s' =>
      (if isupper i then String underscore (String (lower i) EmptyString)
       else String i EmptyString) :: snake_pieces s'
  end.

(** [all(not i.isupper() for i in s)] *)
Fixpoint no_upper (s : string) : bool :=
  match s with
  | EmptyString => true
  | String c s' => (negb (isupper c) && no_upper s')%bool
  end.

End Str.

(** [to_snake], lines 29-34 of the source. *)
Definition to_snake (s : string) : string :=
  Str.lstrip_underscore (String.concat "" (Str.snake_pieces s)).

(** ** Python values

    The objects the decoder can meet: JSON scalars and containers, the
    other built-in containers it rebuilds, temporal objects, members of
    plain [Enum] classes and instances of dataclasses.  An enum member
    carries its class, its name and its underlying [.value]; a dataclass
    instance carries its class and its fields in declaration order.
    A [set] keeps its elements, and a [dict] its items, in insertion
    order.  A [date] is a day number, a (naive) [datetime] a day number
    and a time of day in microseconds. *)

Inductive pyobj : Type :=
| VNone
| VBool (b : bool)
| VInt (z : Z)
| VFloat (f : spec_float)
| VStr (s : string)
| VBytes (b : list ascii)
| VDate (day : Z)
| VDatetime (day : Z) (usec : Z)
| VList (l : list pyobj)
| VTuple (l : list pyobj)
| VSet (l : list pyobj)
| VDict (items : list (pyobj * pyobj))
| VEnum (cls : string) (name : string) (val : pyobj)
| VData (cls : string) (fields : list (string * pyobj)).

(** ** Type annotations

    What [cls] can be: the classes the decoder compares with [is], and
    the [typing] forms it takes apart with [get_origin] and [get_args].
    [Tuple[t, ...]] is [TTupleVar t]; every other [Tuple[...]] is a
    [TTuple].  [typing.Union] and [typing.Literal] have at least one
    argument.  [typing.Optional[t]] is [Union[t, None]], and that is what
    [get_origin] and [get_args] show of it.  A dataclass carries what
    [get_type_hints] returns for it, in declaration order, and the
    defaults of the fields that have one; the hints are held in the
    annotation itself, so a dataclass does not refer back to itself. *)

Inductive ty : Type :=
| TFloat | TInt | TStr | TBool | TBytes
| TDate | TDatetime
| TAny
| TNoneType
| TNewType (name : string) (supertype : ty)
| TNotRequired (arg : ty)
| TList (arg : ty)
| TSet (arg : ty)
| TTuple (args : list ty)
| TTupleVar (arg : ty)
| TDict (key_type value_type : ty)
| TUnion (first : ty) (rest : list ty)
| TLiteral (first : pyobj) (rest : list pyobj)
| TEnum (name : string) (members : list (string * pyobj))
| TData (name : string) (fields : list (string * ty))
        (defaults : list (string * pyobj)).

(** [typing.Optional[t]].  Its origin is [Union] and its arguments are
    [t] and [NoneType]: no annotation has [Optional] for origin, and the
    test of line 86 never holds.  (Where [t] is a union itself, Python
    merges the two unions; the loop over the candidates gives the same
    results on the nested form taken here.) *)
Definition Optional (t : ty) : ty := TUnion t [TNoneType].

(** ** Exceptions *)

Inductive message : Type :=
| MsgNotFitUnion (v : pyobj)
    (* Value '{value}' does not fit any type of the union *)
| MsgNotFitLiteral (v : pyobj)
    (* Value '{value}' does not fit any type of the literal *)
| MsgNotFit (v : pyobj) (cls : ty)
    (* Value '{value}' does not fit '{cls}' *)
| MsgNotDict
    (* value passed to build_dataclass needs to be a dictionary *)
| MsgUnknownKeys (unknown_keys expected : list string)
    (* values in build_dataclass do not match arguments for constructor.
       Unknown keys: {unknown_keys}. Expected keys: {types.keys()} *)
| MsgInvalidEnum (v : pyobj) (cls : string)
    (* {value} is not a valid {cls} *)
| MsgIsoformat (s : string)
    (* Invalid isoformat string: {s} *)
| MsgUnhashable (v : pyobj)
    (* unhashable type *)
| MsgKeywords
    (* keywords must be strings *)
| MsgMissingArgs (cls : string) (missing : list string)
    (* __init__() missing required positional arguments *)
| MsgNoStartswith (k : pyobj)
    (* object has no attribute 'startswith' / wrong argument type *)
| MsgIntTooLarge.
    (* int too large to convert to float *)

Inductive exn : Type :=
| TypeError (m : message)
| ValueError (m : message)
| AttributeError (m : message)
| OverflowError (m : message).

Inductive result (A : Type) : Type :=
| Ok (a : A)
| Raise (e : exn).

Arguments Ok {A} a.
Arguments Raise {A} e.

Definition bind {A B : Type} (r : result A) (k : A -> result B) : result B :=
  match r with
  | Ok a => k a
  | Raise e => Raise e
  end.

Notation "x <- r ;; k" := (bind r (fun x => k))
  (at level 61, r at next level, right associativity).

(** [except (TypeError, ValueError)] *)
Definition is_type_or_value_error (e : exn) : bool :=
  match e with
  | TypeError _ | ValueError _ => true
  | _ => false
  end.

(** Evaluation of [[f(v) for v in l]], left to right. *)
Fixpoint mapM {A B : Type} (f : A -> result B) (l : list A) : result (list B) :=
  match l with
  | [] => Ok []
  | a :: l' => b <- f a ;; bs <- mapM f l' ;; Ok (b :: bs)
  end.

Fixpoint foldM {A S : Type} (f : S -> A -> result S) (s : S) (l : list A)
  : result S :=
  match l with
  | [] => Ok s
  | a :: l' => s' <- f s a ;; foldM f s' l'
  end.

(** ** The Python operations the decoder relies on *)

Module Py.

(** [float(z)] for an [int]: the nearest binary64 number, ties to even;
    an [OverflowError] when it is out of range. *)
Definition float_of_int (z : Z) : result pyobj :=
  match binary_normalize 53 1024 z 0 false with
  | S754_infinity _ => Raise (OverflowError MsgIntTooLarge)
  | f => Ok (VFloat f)
  end.

(** Exact comparison of a float with an integer, as [==] does it. *)
Definition float_eq_int (f : spec_float) (z : Z) : bool :=
  match f with
  | S754_zero _ => z =? 0
  | S754_finite s m e =>
      let sm := if s then Z.neg m else Z.pos m in
      if 0 <=? e then z =? sm * 2 ^ e else z * 2 ^ (- e) =? sm
  | _ => false
  end.

(** [a == b].  Numbers compare by value across [bool], [int] and
    [float]; sequences elementwise within one kind; sets and dicts as
    unordered collections; enum members by identity; dataclass instances
    by class and fields. *)
Fixpoint eq (a b : pyobj) {struct a} : bool :=
  let fix eq_list (l l' : list pyobj) {struct l} : bool :=
    match l, l' with
    | [], [] => true
    | x :: l, y :: l' => eq x y && eq_list l l'
    | _, _ => false
    end in
  let fix eq_fields (l l' : list (string * pyobj)) {struct l} : bool :=
    match l, l' with
    | [], [] => true
    | (n, x) :: l, (n', y) :: l' => String.eqb n n' && eq x y && eq_fields l l'
    | _, _ => false
    end in
  let fix subset (l l' : list pyobj) {struct l} : bool :=
    match l with
    | [] => true
    | x :: l => existsb (eq x) l' && subset l l'
    end in
  let fix subdict (l l' : list (pyobj * pyobj)) {struct l} : bool :=
    match l with
    | [] => true
    | (k, v) :: l =>
        existsb (fun kv => eq k (fst kv) && eq v (snd kv)) l' && subdict l l'
    end in
  match a, b with
  | VNone, VNone => true
  | VBool x, VBool y => Bool.eqb x y
  | VBool x, VInt z => Z.b2z x =? z
  | VBool x, VFloat f => float_eq_int f (Z.b2z x)
  | VInt z, VBool y => z =? Z.b2z y
  | VInt z, VInt z' => z =? z'
  | VInt z, VFloat f => float_eq_int f z
  | VFloat f, VBool y => float_eq_int f (Z.b2z y)
  | VFloat f, VInt z => float_eq_int f z
  | VFloat f, VFloat f' => SFeqb f f'
  | VStr s, VStr s' => String.eqb s s'
  | VBytes s, VBytes s' =>
      String.eqb (string_of_list_ascii s) (string_of_list_ascii s')
  | VDate d, VDate d' => d =? d'
  | VDatetime d t, VDatetime d' t' => (d =? d') && (t =? t')
  | VList l, VList l' => eq_list l l'
  | VTuple l, VTuple l' => eq_list l l'
  | VSet l, VSet l' => (List.length l =? List.length l')%nat && subset l l'
  | VDict l, VDict l' => (List.length l =? List.length l')%nat && subdict l l'
  | VEnum c n _, VEnum c' n' _ => String.eqb c c' && String.eqb n n'
  | VData c l, VData c' l' => String.eqb c c' && eq_fields l l'
  | _, _ => false
  end.

(** [x in args] *)
Definition contains (args : list pyobj) (x : pyobj) : bool :=
  existsb (fun a => eq x a) args.

(** Whether [hash(v)] succeeds.  A dataclass instance is taken with the
    decorator's defaults ([eq=True], not frozen), which leave it
    unhashable. *)
Fixpoint hashable (v : pyobj) : bool :=
  match v with
  | VList _ | VSet _ | VDict _ | VData _ _ => false
  | VTuple l => forallb hashable l
  | _ => true
  end.

(** [s.add(x)] *)
Definition set_add (s : list pyobj) (x : pyobj) : result (list pyobj) :=
  if hashable x then
    Ok (if contains s x then s else (s ++ [x])%list)
  else Raise (TypeError (MsgUnhashable x)).

(** [d[k] = v]: an existing key keeps its place and takes the new value. *)
Fixpoint dict_insert (d : list (pyobj * pyobj)) (k v : pyobj)
  : list (pyobj * pyobj) :=
  match d with
  | [] => [(k, v)]
  | (k', v') :: d' =>
      if eq k' k then (k', v) :: d' else (k', v') :: dict_insert d' k v
  end.

Definition dict_setitem (d : list (pyobj * pyobj)) (k v : pyobj)
  : result (list (pyobj * pyobj)) :=
  if hashable k then Ok (dict_insert d k v)
  else Raise (TypeError (MsgUnhashable k)).

(** [dict] called on the unpacked [d]: every keyword must be a [str]. *)
Definition is_str (v : pyobj) : bool :=
  match v with VStr _ => true | _ => false end.

Definition dict_kwargs (d : list (pyobj * pyobj)) : result pyobj :=
  if forallb (fun kv => is_str (fst kv)) d then Ok (VDict d)
  else Raise (TypeError MsgKeywords).

(** The same for a dict whose keys are strings by construction. *)
Fixpoint sdict_insert (d : list (string * pyobj)) (k : string) (v : pyobj)
  : list (string * pyobj) :=
  match d with
  | [] => [(k, v)]
  | (k', v') :: d' =>
      if String.eqb k' k then (k', v) :: d' else (k', v') :: sdict_insert d' k v
  end.

Fixpoint sdict_get (d : list (string * pyobj)) (k : string) : option pyobj :=
  match d with
  | [] => None
  | (k', v) :: d' => if String.eqb k' k then Some v else sdict_get d' k
  end.

(** [k in keys] *)
Definition mem (k : string) (keys : list string) : bool :=
  existsb (String.eqb k) keys.

(** [cls(value)] for an [Enum] class: a member of the class is returned
    as it is; otherwise the member with that underlying value, the first
    one when there are aliases; a [ValueError] when there is none. *)
Fixpoint enum_lookup (cls : string) (members : list (string * pyobj))
  (v : pyobj) : result pyobj :=
  match members with
  | [] => Raise (ValueError (MsgInvalidEnum v cls))
  | (n, mv) :: ms =>
      if eq mv v then Ok (VEnum cls n mv) else enum_lookup cls ms v
  end.

Definition enum_call (cls : string) (members : list (string * pyobj))
  (v : pyobj) : result pyobj :=
  match v with
  | VEnum c _ _ => if String.eqb c cls then Ok v else enum_lookup cls members v
  | _ => enum_lookup cls members v
  end.

(** [cls] called on unpacked [kwargs], for a dataclass: every field
    takes its keyword, else its default; a [TypeError] names the fields
    that have neither. *)
Fixpoint init_fields (names : list string)
  (defaults kwargs : list (string * pyobj))
  : list (string * pyobj) * list string :=
  match names with
  | [] => ([], [])
  | n :: names' =>
      let (bound, missing) := init_fields names' defaults kwargs in
      match sdict_get kwargs n with
      | Some v => ((n, v) :: bound, missing)
      | None =>
          match sdict_get defaults n with
          | Some v => ((n, v) :: bound, missing)
          | None => (bound, n :: missing)
          end
      end
  end.

Definition dataclass_call (cls : string) (names : list string)
  (defaults kwargs : list (string * pyobj)) : result pyobj :=
  match init_fields names defaults kwargs with
  | (bound, []) => Ok (VData cls bound)
  | (_, missing) => Raise (TypeError (MsgMissingArgs cls missing))
  end.

(** [dataclasses.is_dataclass(value)] *)
Definition is_dataclass (v : pyobj) : bool :=
  match v with VData _ _ => true | _ => false end.

(** [isinstance(value, cls)]; [None] when it raises a [TypeError], as it
    does for a subscripted generic and for the special forms. *)
Definition isinstance (v : pyobj) (cls : ty) : option bool :=
  match cls with
  | TFloat => Some match v with VFloat _ => true | _ => false end
  | TInt => Some match v with VInt _ | VBool _ => true | _ => false end
  | TStr => Some (is_str v)
  | TBool => Some match v with VBool _ => true | _ => false end
  | TBytes => Some match v with VBytes _ => true | _ => false end
  | TDate => Some match v with VDate _ | VDatetime _ _ => true | _ => false end
  | TDatetime => Some match v with VDatetime _ _ => true | _ => false end
  | TNoneType => Some match v with VNone => true | _ => false end
  | TEnum name _ =>
      Some match v with VEnum c _ _ => String.eqb c name | _ => false end
  | TData name _ _ =>
      Some match v with VData c _ => String.eqb c name | _ => false end
  | _ => None
  end.

End Py.

(** ** The decoder *)

Record DataclassParser : Type := { allow_unknown_keys : bool }.

Section Decoder.

(** [datetime.datetime.fromisoformat]: the day and the time of day that a
    string denotes, [None] when it raises its [ValueError]. *)
Variable fromisoformat : string -> option (Z * Z).

Definition parse_iso (s : string) : result (Z * Z) :=
  match fromisoformat s with
  | Some dt => Ok dt
  | None => Raise (ValueError (MsgIsoformat s))
  end.

(** Lines 43-52: the basic types.  [Some r] when one of the five tests
    holds and the function returns [r]; [isinstance(value, int)] holds
    of a [bool] too. *)
Definition basic_types (value : pyobj) (cls : ty) : option (result pyobj) :=
  match cls, value with
  | TFloat, VFloat f => Some (Ok (VFloat f))
  | TFloat, VInt z => Some (Py.float_of_int z)
  | TFloat, VBool b => Some (Py.float_of_int (Z.b2z b))
  | TInt, VInt z => Some (Ok (VInt z))
  | TInt, VBool b => Some (Ok (VInt (Z.b2z b)))
  | TStr, VStr s => Some (Ok (VStr s))
  | TBool, VBool b => Some (Ok (VBool b))
  | TBytes, VBytes b => Some (Ok (VBytes b))
  | _, _ => None
  end.

(** Lines 55-58: date and datetime from an ISO string. *)
Definition temporal (value : pyobj) (cls : ty) : option (result pyobj) :=
  match cls, value with
  | TDate, VStr s => Some (dt <- parse_iso s ;; Ok (VDate (fst dt)))
  | TDatetime, VStr s =>
      Some (dt <- parse_iso s ;; Ok (VDatetime (fst dt) (snd dt)))
  | _, _ => None
  end.

Definition is_any (cls : ty) : bool :=
  match cls with TAny => true | _ => false end.

(** [isinstance(value, (tuple, list, set))] and
    [isinstance(value, (tuple, list))], with the elements in iteration
    order. *)
Definition as_tuple_list_set (value : pyobj) : option (list pyobj) :=
  match value with
  | VTuple l | VList l | VSet l => Some l
  | _ => None
  end.

Definition as_tuple_list (value : pyobj) : option (list pyobj) :=
  match value with
  | VTuple l | VList l => Some l
  | _ => None
  end.

(** Lines 152-158: the last resort. *)
Definition fallback (value : pyobj) (cls : ty) : result pyobj :=
  match Py.isinstance value cls with
  | Some true => Ok value
  | _ => Raise (ValueError (MsgNotFit value cls))
  end.

(** Lines 121-131: one turn of the loop over the candidates of a union;
    [next] is the rest of the loop. *)
Definition try_candidate (attempt next : result pyobj) : result pyobj :=
  match attempt with
  | Ok r => Ok r
  | Raise e => if is_type_or_value_error e then next else Raise e
  end.

(** Lines 136-140: a single literal that is an enum member with the
    value at hand. *)
Definition single_enum_literal (first : pyobj) (rest : list pyobj)
  (value : pyobj) : bool :=
  match rest, first with
  | [], VEnum _ _ member_value => Py.eq member_value value
  | _, _ => false
  end.

(** Lines 170-172: one item of the comprehension that builds
    [snake_cased_values]. *)
Definition snake_case_item (acc : list (string * pyobj)) (kv : pyobj * pyobj)
  : result (list (string * pyobj)) :=
  match fst kv with
  | VStr k =>
      Ok (if Str.startswith_underscore k then acc
          else Py.sdict_insert acc (to_snake k) (snd kv))
  | VBytes b => Raise (TypeError (MsgNoStartswith (VBytes b)))
  | k => Raise (AttributeError (MsgNoStartswith k))
  end.

Definition snake_case (items : list (pyobj * pyobj))
  : result (list (string * pyobj)) :=
  foldM snake_case_item [] items.

(** Lines 184-188: the comprehension that builds [transformed];
    [build_field k v] is [None] when [k] is not in [types]. *)
Fixpoint transform (build_field : string -> pyobj -> option (result pyobj))
  (snake_cased_values : list (string * pyobj))
  : result (list (string * pyobj)) :=
  match snake_cased_values with
  | [] => Ok []
  | (k, v) :: rest =>
      match build_field k v with
      | Some r =>
          x <- r ;; xs <- transform build_field rest ;; Ok ((k, x) :: xs)
      | None => transform build_field rest
      end
  end.

(** [snake_cased_values.keys() - types.keys()] *)
Definition unknown_keys (keys names : list string) : list string :=
  filter (fun k => negb (Py.mem k names)) keys.

(** Lines 160-190, with the decoding of one field left open. *)
Definition build_dataclass_with
  (build_field : string -> pyobj -> option (result pyobj))
  (self : DataclassParser) (values : pyobj)
  (name : string) (names : list string) (defaults : list (string * pyobj))
  : result pyobj :=
  match values with
  | VDict items =>
      snake_cased_values <- snake_case items ;;
      let keys := map fst snake_cased_values in
      if negb (allow_unknown_keys self)
         && negb (forallb (fun k => Py.mem k names) keys)
      then Raise (ValueError (MsgUnknownKeys (unknown_keys keys names) names))
      else
        transformed <- transform build_field snake_cased_values ;;
        Py.dataclass_call name names defaults transformed
  | _ => Raise (ValueError MsgNotDict)
  end.

(** [_build_value], lines 41-158.  The tests follow the order of the
    source; those of the [if]/[elif] chain of lines 86-150 that read
    [origin_cls] or [cls] are the branches of the [match], and a branch
    whose test on [value] fails goes on to the last resort, as the chain
    does.  Calling a [NewType] returns its argument. *)
Fixpoint _build_value (self : DataclassParser) (value : pyobj) (cls : ty)
  {struct cls} : result pyobj :=
  match basic_types value cls with Some r => r | None =>
  match temporal value cls with Some r => r | None =>
  if is_any cls then Ok value else
  if Py.is_dataclass value then Ok value else
  match cls with
  | TNewType _ supertype => _build_value self value supertype
  | TNotRequired arg_type =>
      match value with
      | VNone => Ok VNone
      | _ => _build_value self value arg_type
      end
  | TList arg_type =>
      match as_tuple_list_set value with
      | Some vs =>
          l <- mapM (fun v => _build_value self v arg_type) vs ;; Ok (VList l)
      | None => fallback value cls
      end
  | TSet arg_type =>
      match as_tuple_list_set value with
      | Some vs =>
          s <- foldM (fun s v => x <- _build_value self v arg_type ;;
                                 Py.set_add s x) [] vs ;;
          Ok (VSet s)
      | None => fallback value cls
      end
  | TTupleVar arg_type =>
      match as_tuple_list value with
      | Some vs =>
          l <- mapM (fun v => _build_value self v arg_type) vs ;; Ok (VTuple l)
      | None => fallback value cls
      end
  | TTuple arg_types =>
      match as_tuple_list value with
      | Some vs =>
          l <- (fix zipped (vs : list pyobj) (ts : list ty) {struct ts}
                  : result (list pyobj) :=
                  match vs, ts with
                  | v :: vs', t :: ts' =>
                      x <- _build_value self v t ;;
                      xs <- zipped vs' ts' ;; Ok (x :: xs)
                  | _, _ => Ok []
                  end) vs arg_types ;;
          Ok (VTuple l)
      | None => fallback value cls
      end
  | TDict key_type value_type =>
      match value with
      | VDict items =>
          d <- foldM (fun d kv =>
                        k <- _build_value self (fst kv) key_type ;;
                        v <- _build_value self (snd kv) value_type ;;
                        Py.dict_setitem d k v) [] items ;;
          Py.dict_kwargs d
      | _ => fallback value cls
      end
  | TUnion first rest =>
      try_candidate (_build_value self value first)
        ((fix candidates (arg_types : list ty) {struct arg_types}
            : result pyobj :=
            match arg_types with
            | [] => Raise (ValueError (MsgNotFitUnion value))
            | arg_type :: arg_types' =>
                try_candidate (_build_value self value arg_type)
                              (candidates arg_types')
            end) rest)
  | TLiteral first rest =>
      if single_enum_literal first rest value then Ok first
      else if negb (Py.contains (first :: rest) value)
      then Raise (ValueError (MsgNotFitLiteral value))
      else Ok value
  | TEnum name members => Py.enum_call name members value
  | TData name fields defaults =>
      build_dataclass_with
        ((fix build_field (types : list (string * ty)) (k : string)
            (v : pyobj) {struct types} : option (result pyobj) :=
            match types with
            | [] => None
            | (k', t) :: types' =>
                if String.eqb k' k then Some (_build_value self v t)
                else build_field types' k v
            end) fields)
        self value name (map fst fields) defaults
  | _ => fallback value cls
  end
  end end.

(** The three inner loops of [_build_value], by name. *)

(** Line 107: [self._build_value(v, t) for v, t in zip(value, arg_types)] *)
Definition zipped (self : DataclassParser)
  : list pyobj -> list ty -> result (list pyobj) :=
  fix zipped (vs : list pyobj) (ts : list ty) {struct ts} :=
    match vs, ts with
    | v :: vs', t :: ts' =>
        x <- _build_value self v t ;; xs <- zipped vs' ts' ;; Ok (x :: xs)
    | _, _ => Ok []
    end.

(** Lines 121-131: [for arg_type in arg_types: try: return ...] *)
Definition candidates (self : DataclassParser) (value : pyobj)
  : list ty -> result pyobj :=
  fix candidates (arg_types : list ty) {struct arg_types} :=
    match arg_types with
    | [] => Raise (ValueError (MsgNotFitUnion value))
    | arg_type :: arg_types' =>
        try_candidate (_build_value self value arg_type)
                      (candidates arg_types')
    end.

(** Lines 185-187: [self._build_value(v, types[k])] when [k in types]. *)
Definition build_field (self : DataclassParser)
  : list (string * ty) -> string -> pyobj -> option (result pyobj) :=
  fix build_field (types : list (string * ty)) (k : string) (v : pyobj)
    {struct types} :=
    match types with
    | [] => None
    | (k', t) :: types' =>
        if String.eqb k' k then Some (_build_value self v t)
        else build_field types' k v
    end.

(** [build_dataclass], lines 160-190, for the dataclass [name] with the
    type hints [fields] and the defaults [defaults]. *)
Definition build_dataclass (self : DataclassParser) (values : pyobj)
  (name : string) (fields : list (string * ty))
  (defaults : list (string * pyobj)) : result pyobj :=
  build_dataclass_with (build_field self fields) self values
    name (map fst fields) defaults.

End Decoder.

(** ** Vocabulary of the statements *)

(** A wire mapping: string keys, in the order of the message. *)
Definition str_dict (raw : list (string * pyobj)) : pyobj :=
  VDict (map (fun kv => (VStr (fst kv), snd kv)) raw).

(** The normalized names of the keys that are not private. *)
Definition normalized_keys (raw : list (string * pyobj)) : list string :=
  map to_snake
    (filter (fun k => negb (Str.startswith_underscore k)) (map fst raw)).

(** The items whose key is neither private nor unknown to [names]. *)
Definition known_items (names : list string) (raw : list (string * pyobj))
  : list (string * pyobj) :=
  filter (fun kv => negb (Str.startswith_underscore (fst kv))
                    && Py.mem (to_snake (fst kv)) names) raw.

(** [snake_cased_values] for a wire mapping, starting from [acc]. *)
Definition snake_fold (raw acc : list (string * pyobj))
  : list (string * pyobj) :=
  fold_left
    (fun acc kv =>
       if Str.startswith_underscore (fst kv) then acc
       else Py.sdict_insert acc (to_snake (fst kv)) (snd kv))
    raw acc.

(** A candidate of a union that is passed over: it raises a type or a
    value error. *)
Definition passed_over (attempt : result pyobj) : Prop :=
  exists e, attempt = Raise e /\ is_type_or_value_error e = true.

(** A parser for the closed examples: it accepts no string. *)
Definition iso_none : string -> option (Z * Z) := fun _ => None.

(** A JSON parser for the closed examples: it knows two texts, refuses
    every other string with a value error and every other object with a
    type error. *)
Definition json_example (message : pyobj) : result pyobj :=
  match message with
  | VStr "{}" => Ok (VDict [])
  | VStr "[]" => Ok (VList [])
  | VStr s => Raise (ValueError (MsgNotFit (VStr s) TAny))
  | m => Raise (TypeError (MsgNotFit m TStr))
  end.

(** A date parser for the closed examples: every string is day 1. *)
Definition iso_day_one : string -> option (Z * Z) := fun _ => Some (1, 0).

Definition strict : DataclassParser := {| allow_unknown_keys := false |}.
Definition tolerant : DataclassParser := {| allow_unknown_keys := true |}.

(** ** The entry point *)

Section ParseRaw.

Variable fromisoformat : string -> option (Z * Z).

(** [json.loads]: the value that a text denotes, or the exception that
    it raises. *)
Variable json_loads : pyobj -> result pyobj.

(** [parse_raw], lines 193-223, for the dataclass [name] with the type
    hints [fields] and the defaults [defaults]. *)
Definition parse_raw (message : pyobj)
  (name : string) (fields : list (string * ty))
  (defaults : list (string * pyobj)) (allow : bool) : result pyobj :=
  match message with
  | VDict _ =>
      build_dataclass fromisoformat (Build_DataclassParser allow)
        message name fields defaults
  | _ =>
      parsed <- json_loads message ;;
      build_dataclass fromisoformat (Build_DataclassParser allow)
        parsed name fields defaults
  end.

End ParseRaw.

(** ** The dataclasses of [marimo/_data/models.py] *)

Module Models.

(** Lines 11-20. *)
Definition DataType : ty :=
  TLiteral (VStr "string")
    [VStr "boolean"; VStr "integer"; VStr "number"; VStr "date";
     VStr "datetime"; VStr "time"; VStr "unknown"].

(** Line 23. *)
Definition ExternalDataType : ty := TStr.

(** Lines 26-39. *)
Definition DataTableColumn_fields : list (string * ty) :=
  [("name", TStr); ("type", DataType);
   ("external_type", ExternalDataType); ("sample_values", TList TAny)].

Definition DataTableColumn : ty :=
  TData "DataTableColumn" DataTableColumn_fields [].

(** Line 42. *)
Definition DataTableSource : ty :=
  TLiteral (VStr "local") [VStr "duckdb"; VStr "connection"].

(** Lines 45-67; [VariableName] comes from [marimo._types.ids]. *)
Definition DataTable_fields (VariableName : ty) : list (string * ty) :=
  [("source_type", DataTableSource); ("source", TStr); ("name", TStr);
   ("num_rows", Optional TInt); ("num_columns", Optional TInt);
   ("variable_name", Optional VariableName);
   ("columns", TList DataTableColumn);
   ("engine", Optional VariableName)].

Definition DataTable_defaults : list (string * pyobj) := [("engine", VNone)].

End Models.

(** ** [marimo/_plugins/stateless/pdf.py] *)

Module Pdf.

(** What [src] can be: a URL; a path, with the bytes that [read_bytes]
    returns; a file-like object, with the bytes that [read] returns. *)
Inductive source : Type :=
| Url (url : string)
| FilePath (content : list ascii)
| Stream (content : list ascii).

Section Pdf.

(** [mo_data.pdf(content).url]: the URL of the virtual file that holds
    the bytes. *)
Variable virtual_file_url : list ascii -> string.

(** What is done with the source and the style dict: the [Html] of the
    [iframe] whose style is [create_style] of the dict. *)
Variable Html : Type.
Variable iframe : string -> list (string * pyobj) -> Html.

(** [str(n)] for an [int]. *)
Definition str_of_int (n : Z) : string :=
  DecimalString.NilZero.string_of_int (Z.to_int n).

(** Lines 57-66. *)
Definition resolved_src (src : source) (initial_page : option Z) : string :=
  let resolved :=
    match src with
    | Url url => url
    | FilePath content => virtual_file_url content
    | Stream content => virtual_file_url content
    end in
  match initial_page, src with
  | Some page, Url _ =>
      (resolved ++ "#page=" ++ str_of_int page ++ "&view=FitV")%string
  | _, _ => resolved
  end.

(** Lines 68-73: the dict display, with [style or {}] unpacked last. *)
Definition style_dict (width height : pyobj)
  (style : option (list (string * pyobj))) : list (string * pyobj) :=
  fold_left (fun d kv => Py.sdict_insert d (fst kv) (snd kv))
    (match style with Some st => st | None => [] end)
    [("border-radius", VStr "4px"); ("width", width); ("height", height)].

(** [pdf], lines 18-80. *)
Definition pdf (src : source) (initial_page : option Z) (width height : pyobj)
  (style : option (list (string * pyobj))) : Html :=
  iframe (resolved_src src initial_page) (style_dict width height style).

End Pdf.

End Pdf.

(** ** More vocabulary *)

(** The value that a wire mapping gives for the normalized name [n]: that
    of the last item, private keys apart, whose key normalizes to [n]. *)
Definition wire_value (raw : list (string * pyobj)) (n : string)
  : option pyobj :=
  fold_left
    (fun acc kv =>
       if negb (Str.startswith_underscore (fst kv))
          && String.eqb (to_snake (fst kv)) n
       then Some (snd kv) else acc)
    raw None.

(** A key with its underscores taken out, and in lower case. *)
Fixpoint without_underscores (s : string) : string :=
  match s with
  | EmptyString => EmptyString
  | String c s' =>
      if Ascii.eqb c Str.underscore then without_underscores s'
      else String c (without_underscores s')
  end.

Fixpoint lower_all (s : string) : string :=
  match s with
  | EmptyString => EmptyString
  | String c s' => String (Str.lower c) (lower_all s')
  end.

(** The keys of a wire mapping in normalized form, private keys dropped. *)
Definition normalized_items (raw : list (string * pyobj))
  : list (string * pyobj) :=
  map (fun kv => (to_snake (fst kv), snd kv))
      (filter (fun kv => negb (Str.startswith_underscore (fst kv))) raw).

(** A wire value for an optional integer. *)
Definition opt_int (o : option Z) : pyobj :=
  match o with
  | Some z => VInt z
  | None => VNone
  end.

(** The fields that [defaults] gives no value. *)
Definition required (names : list string) (defaults : list (string * pyobj))
  : list string :=
  filter (fun n => match Py.sdict_get defaults n with
                   | None => true
                   | Some _ => false
                   end) names.

(** ** Key normalization *)

Lemma concat_cons (p : string) (ps : list string) :
  String.concat "" (p :: ps) = (p ++ String.concat "" ps)%string.
Proof.
  destruct ps as [|q ps]; simpl.
  - induction p as [|c p IH]; simpl; [reflexivity | now rewrite <- IH].
  - reflexivity.
Qed.

Lemma joined_cons (c : ascii) (s : string) :
  String.concat "" (Str.snake_pieces (String c s)) =
  ((if Str.isupper c
    then String Str.underscore (String (Str.lower c) EmptyString)
    else String c EmptyString) ++ String.concat "" (Str.snake_pieces s))%string.
Proof. cbn [Str.snake_pieces]. apply concat_cons. Qed.

Lemma joined_no_upper (s : string) :
  Str.no_upper s = true -> String.concat "" (Str.snake_pieces s) = s.
Proof.
  induction s as [|c s IH]; intros H; [reflexivity|].
  cbn [Str.no_upper] in H. apply andb_true_iff in H as [Hc Hs].
  rewrite joined_cons. apply negb_true_iff in Hc. rewrite Hc.
  simpl. now rewrite IH.
Qed.

Lemma lstrip_not_underscore (s : string) :
  Str.startswith_underscore s = false -> Str.lstrip_underscore s = s.
Proof.
  destruct s as [|c s]; simpl; intros H; [reflexivity | now rewrite H].
Qed.

Lemma lstrip_startswith (s : string) :
  Str.startswith_underscore (Str.lstrip_underscore s) = false.
Proof.
  induction s as [|c s IH]; [reflexivity|].
  simpl. destruct (Ascii.eqb c Str.underscore) eqn:E; [exact IH|].
  simpl. exact E.
Qed.

Lemma lower_not_underscore (c : ascii) :
  Str.isupper c = true -> Ascii.eqb (Str.lower c) Str.underscore = false.
Proof.
  destruct c as [[] [] [] [] [] [] [] []]; intros H;
    solve [discriminate H | reflexivity].
Qed.

Lemma joined_app (a b : string) :
  String.concat "" (Str.snake_pieces (a ++ b)) =
  (String.concat "" (Str.snake_pieces a)
   ++ String.concat "" (Str.snake_pieces b))%string.
Proof.
  induction a as [|c a IH]; [reflexivity|].
  change (String c a ++ b)%string with (String c (a ++ b)%string).
  rewrite !joined_cons, IH.
  destruct (Str.isupper c); reflexivity.
Qed.

(** C1 (as amended).  On keys of ASCII characters, [to_snake] puts an
    underscore before each capital letter and lower-cases it, then strips
    every leading underscore: ["someFieldName"] becomes
    ["some_field_name"]; a key without capital letters that does not
    start with an underscore is unchanged; a key whose first character is
    a capital letter loses the underscore put before it, so that its
    normalized name starts with the lower-cased letter; a capital letter
    further inside becomes an underscore and its lower case.  No
    normalized name starts with an underscore. *)
Theorem to_snake_spec :
  to_snake "someFieldName" = "some_field_name"
  /\ (forall k, Str.is_ascii k = true -> Str.no_upper k = true ->
                Str.startswith_underscore k = false -> to_snake k = k)
  /\ (forall c k, Str.is_ascii (String c k) = true -> Str.isupper c = true ->
        to_snake (String c k) =
        String (Str.lower c) (String.concat "" (Str.snake_pieces k)))
  /\ (forall k, Str.startswith_underscore (to_snake k) = false)
  /\ (forall a c b, Str.is_ascii (a ++ String c b) = true ->
        Str.no_upper a = true ->
        Str.startswith_underscore a = false -> a <> EmptyString ->
        Str.isupper c = true ->
        to_snake (a ++ String c b) =
        (a ++ String Str.underscore
                (String (Str.lower c)
                        (String.concat "" (Str.snake_pieces b))))%string).
Proof.
  split; [reflexivity|].
  split.
  { intros k _ Hu Hs. unfold to_snake.
    rewrite (joined_no_upper k Hu). now apply lstrip_not_underscore. }
  split.
  { intros c k _ Hc. unfold to_snake. rewrite joined_cons, Hc.
    cbn [String.append Str.lstrip_underscore].
    rewrite Ascii.eqb_refl. cbn [Str.lstrip_underscore].
    now rewrite (lower_not_underscore c Hc). }
  split.
  { intros k. apply lstrip_startswith. }
  intros a c b _ Hu Hs Ha Hc. unfold to_snake.
  rewrite joined_app, (joined_no_upper a Hu), joined_cons, Hc.
  apply lstrip_not_underscore.
  destruct a as [|x a]; [contradiction|exact Hs].
Qed.

Lemma to_snake_spec_witness :
  to_snake "name" = "name"
  /\ to_snake "SomeField" = String (Str.lower "S") "ome_field"
  /\ to_snake "someField" = "some_field".
Proof.
  destruct to_snake_spec as (_ & Hlow & Hcap & _ & Hmid).
  split; [apply Hlow; reflexivity|].
  split; [apply (Hcap "S"%char "omeField"); reflexivity|].
  apply (Hmid "some" "F"%char "ield");
    [reflexivity | reflexivity | reflexivity | discriminate | reflexivity].
Defined.

(** C1, as first stated, asks for a leading underscore when the key
    starts with a capital letter; the source strips it. *)
Lemma to_snake_leading_capital_cex :
  Str.isupper "S" = true
  /\ to_snake "SomeField" = "some_field"
  /\ Str.startswith_underscore (to_snake "SomeField") = false.
Proof. repeat split. Qed.

(** ** Sequencing *)

Lemma mapM_length {A B : Type} (f : A -> result B) (l : list A) (l' : list B) :
  mapM f l = Ok l' -> List.length l' = List.length l.
Proof.
  revert l'. induction l as [|a l IH]; simpl; intros l' H.
  - now inversion H.
  - destruct (f a) as [b|e]; simpl in H; [|discriminate].
    destruct (mapM f l) as [bs|e]; simpl in H; [|discriminate].
    inversion H; subst. simpl. f_equal. now apply IH.
Qed.

Lemma mapM_raise {A B : Type} (f : A -> result B) (l : list A) (e : exn) :
  mapM f l = Raise e -> exists a, In a l /\ f a = Raise e.
Proof.
  induction l as [|a l IH]; simpl; intros H; [discriminate|].
  destruct (f a) as [b|e'] eqn:Ef; simpl in H.
  - destruct (mapM f l) as [bs|e'']; simpl in H; [discriminate|].
    inversion H; subst. destruct (IH eq_refl) as (a' & Hin & Ha').
    exists a'. auto.
  - inversion H; subst. exists a. auto.
Qed.

Lemma mapM_ok {A B : Type} (f : A -> result B) (l : list A) :
  (forall a, In a l -> exists b, f a = Ok b) -> exists l', mapM f l = Ok l'.
Proof.
  induction l as [|a l IH]; simpl; intros H; [now exists []|].
  destruct (H a (or_introl eq_refl)) as (b & Hb). rewrite Hb. simpl.
  destruct IH as (bs & Hbs); [intros; apply H; now right|].
  rewrite Hbs. simpl. now exists (b :: bs).
Qed.

Lemma mem_In (k : string) (keys : list string) :
  Py.mem k keys = true <-> In k keys.
Proof.
  unfold Py.mem. rewrite existsb_exists. split.
  - intros (x & Hin & Hx). apply String.eqb_eq in Hx. now subst.
  - intros H. exists k. split; [exact H | apply String.eqb_refl].
Qed.

Section Properties.

Variable fromisoformat : string -> option (Z * Z).

Local Abbreviation decode := (_build_value fromisoformat).
Local Abbreviation decode_record := (build_dataclass fromisoformat).

(** ** The shape of [_build_value] on each kind of annotation *)

Lemma decode_VData self c fs cls :
  decode self (VData c fs) cls = Ok (VData c fs).
Proof. destruct cls; reflexivity. Qed.

Lemma decode_TTuple_list self vs ts :
  decode self (VList vs) (TTuple ts) =
  (l <- zipped fromisoformat self vs ts ;; Ok (VTuple l)).
Proof. reflexivity. Qed.

Lemma decode_TTuple_tuple self vs ts :
  decode self (VTuple vs) (TTuple ts) =
  (l <- zipped fromisoformat self vs ts ;; Ok (VTuple l)).
Proof. reflexivity. Qed.

Lemma decode_TData self value name fields defaults :
  decode self value (TData name fields defaults) =
  if Py.is_dataclass value then Ok value
  else decode_record self value name fields defaults.
Proof. destruct value; reflexivity. Qed.

Lemma decode_TUnion self value first rest :
  decode self value (TUnion first rest) =
  candidates fromisoformat self value (first :: rest).
Proof.
  destruct value; try reflexivity.
  rewrite decode_VData. unfold candidates.
  rewrite decode_VData. reflexivity.
Qed.

Lemma decode_TNotRequired self value arg_type :
  decode self value (TNotRequired arg_type) =
  match value with
  | VNone => Ok VNone
  | _ => decode self value arg_type
  end.
Proof. destruct value; try reflexivity. now rewrite !decode_VData. Qed.

Lemma decode_TLiteral self value first rest :
  Py.is_dataclass value = false ->
  decode self value (TLiteral first rest) =
  if single_enum_literal first rest value then Ok first
  else if negb (Py.contains (first :: rest) value)
       then Raise (ValueError (MsgNotFitLiteral value))
       else Ok value.
Proof. destruct value; intros H; try reflexivity. discriminate H. Qed.

Lemma decode_TEnum self value name members :
  Py.is_dataclass value = false ->
  decode self value (TEnum name members) = Py.enum_call name members value.
Proof. destruct value; intros H; try reflexivity. discriminate H. Qed.

Lemma zipped_combine self vs ts :
  zipped fromisoformat self vs ts =
  mapM (fun vt => decode self (fst vt) (snd vt)) (combine vs ts).
Proof.
  revert ts. induction vs as [|v vs IH]; intros [|t ts]; try reflexivity.
  cbn [combine mapM fst snd]. rewrite <- IH. reflexivity.
Qed.

Lemma candidates_passed_over self value pre post :
  Forall (fun t => passed_over (decode self value t)) pre ->
  candidates fromisoformat self value (pre ++ post) =
  candidates fromisoformat self value post.
Proof.
  induction 1 as [|t pre (e & He & Htv) _ IH]; [reflexivity|].
  change ((t :: pre) ++ post)%list with (t :: (pre ++ post)%list).
  cbn [candidates]. rewrite He. cbn [try_candidate]. rewrite Htv. exact IH.
Qed.

(** ** Already-constructed records *)

(** C2 (as amended).  The passthrough of line 64 asks only whether the
    raw value is an instance of a dataclass: such an instance is returned
    unchanged against every annotation, whether or not the annotation is
    its own class. *)
Theorem dataclass_instance_passthrough :
  forall self c fs cls,
  _build_value fromisoformat self (VData c fs) cls = Ok (VData c fs).
Proof. intros. apply decode_VData. Qed.

(** ** Tuples *)

(** C3 (as amended).  Against a tuple annotation of fixed arity a raw
    list or tuple is decoded pairwise by position, as far as the shorter
    of the two goes: the result is the tuple of the decoded pairs of
    [zip(value, arg_types)], its length is the smaller of the two
    lengths, and a failure is always the failure of one of the pairs,
    never one about the arity. *)
Theorem tuple_pairwise_by_position :
  forall self vs ts,
  let pairs := mapM (fun vt => decode self (fst vt) (snd vt)) (combine vs ts) in
  decode self (VList vs) (TTuple ts) = (l <- pairs ;; Ok (VTuple l))
  /\ decode self (VTuple vs) (TTuple ts) = (l <- pairs ;; Ok (VTuple l))
  /\ (forall r, decode self (VList vs) (TTuple ts) = Ok r ->
        exists l, r = VTuple l
                  /\ List.length l = Nat.min (List.length vs) (List.length ts))
  /\ (forall e, decode self (VList vs) (TTuple ts) = Raise e ->
        exists v t, In (v, t) (combine vs ts) /\ decode self v t = Raise e)
  /\ ((forall v t, In (v, t) (combine vs ts) ->
                   exists x, decode self v t = Ok x) ->
        exists l, decode self (VList vs) (TTuple ts) = Ok (VTuple l)).
Proof.
  intros self vs ts pairs.
  assert (E : decode self (VList vs) (TTuple ts)
              = (l <- pairs ;; Ok (VTuple l))).
  { rewrite decode_TTuple_list, zipped_combine. reflexivity. }
  split; [exact E|].
  split; [rewrite decode_TTuple_tuple, zipped_combine; reflexivity|].
  rewrite E. subst pairs.
  split; [|split].
  - intros r H.
    destruct (mapM _ (combine vs ts)) as [l|e] eqn:Em; simpl in H;
      [|discriminate].
    inversion H; subst. exists l. split; [reflexivity|].
    rewrite (mapM_length _ _ _ Em). apply length_combine.
  - intros e H.
    destruct (mapM _ (combine vs ts)) as [l|e'] eqn:Em; simpl in H;
      [discriminate|].
    inversion H; subst. destruct (mapM_raise _ _ _ Em) as ([v t] & Hin & Hv).
    exists v, t. auto.
  - intros H.
    destruct (mapM_ok (fun vt => decode self (fst vt) (snd vt)) (combine vs ts))
      as (l & Hl).
    { intros [v t] Hin. apply H. exact Hin. }
    rewrite Hl. exists l. reflexivity.
Qed.

(** ** Mappings *)

(** C4, at the failing input.  A mapping whose decoded key is an enum
    member is not rebuilt: the keyword call on the decoded items raises a
    [TypeError], because a keyword has to be a string. *)
Theorem dict_enum_key_raises :
  forall self,
  _build_value fromisoformat self (VDict [(VStr "red", VInt 1)])
    (TDict (TEnum "Color" [("RED", VStr "red")]) TInt)
  = Raise (TypeError MsgKeywords).
Proof. reflexivity. Qed.

(** ** Unions *)

(** C5.  The candidates of a union are tried in their declared order.
    The result is that of the first candidate that returns, those before
    it having raised a type or a value error; an exception of another
    class raised by a candidate is the result at once; when every
    candidate raises a type or a value error the union raises its own
    value error.  The string ["5"] against [Union[int, str]] is returned
    as the string ["5"]. *)
Theorem union_first_success :
  forall self value first rest,
  (forall pre t post r,
      first :: rest = (pre ++ t :: post)%list ->
      Forall (fun c => passed_over (decode self value c)) pre ->
      decode self value t = Ok r ->
      decode self value (TUnion first rest) = Ok r)
  /\ (forall pre t post e,
      first :: rest = (pre ++ t :: post)%list ->
      Forall (fun c => passed_over (decode self value c)) pre ->
      decode self value t = Raise e ->
      is_type_or_value_error e = false ->
      decode self value (TUnion first rest) = Raise e)
  /\ (Forall (fun c => passed_over (decode self value c)) (first :: rest) ->
      decode self value (TUnion first rest) =
      Raise (ValueError (MsgNotFitUnion value)))
  /\ decode self (VStr "5") (TUnion TInt [TStr]) = Ok (VStr "5").
Proof.
  intros self value first rest. rewrite decode_TUnion.
  split; [|split; [|split]].
  - intros pre t post r -> Hpre Ht.
    rewrite (candidates_passed_over _ _ _ _ Hpre).
    cbn [candidates]. rewrite Ht. reflexivity.
  - intros pre t post e -> Hpre Ht He.
    rewrite (candidates_passed_over _ _ _ _ Hpre).
    cbn [candidates]. rewrite Ht. cbn [try_candidate]. now rewrite He.
  - intros Hall.
    rewrite <- (app_nil_r (first :: rest)).
    rewrite (candidates_passed_over _ _ _ _ Hall). reflexivity.
  - reflexivity.
Qed.

(** ** Literals *)

(** C7 (as amended).  For a raw value that is not a dataclass instance
    (such a value is returned before the literal is looked at): when the
    literal has a single argument, an enum member whose value equals the
    raw value, the member is returned; otherwise the raw value is
    returned unchanged when it is among the arguments, and a value error
    of the literal is raised when it is not.  ["red"] against
    [Literal[Color.RED]] is [Color.RED]. *)
Theorem literal_decoding :
  (forall self value first rest,
     Py.is_dataclass value = false ->
     (forall c n mv, first = VEnum c n mv -> rest = [] ->
        Py.eq mv value = true ->
        decode self value (TLiteral first rest) = Ok first)
     /\ (single_enum_literal first rest value = false ->
         Py.contains (first :: rest) value = true ->
         decode self value (TLiteral first rest) = Ok value)
     /\ (single_enum_literal first rest value = false ->
         Py.contains (first :: rest) value = false ->
         decode self value (TLiteral first rest) =
         Raise (ValueError (MsgNotFitLiteral value))))
  /\ (forall first rest value,
        single_enum_literal first rest value = true <->
        rest = []
        /\ exists c n mv, first = VEnum c n mv /\ Py.eq mv value = true)
  /\ (forall self,
        decode self (VStr "red")
          (TLiteral (VEnum "Color" "RED" (VStr "red")) [])
        = Ok (VEnum "Color" "RED" (VStr "red"))).
Proof.
  split; [|split].
  - intros self value first rest Hv. rewrite (decode_TLiteral _ _ _ _ Hv).
    split; [|split].
    + intros c n mv -> -> He. cbn [single_enum_literal]. now rewrite He.
    + intros -> ->. reflexivity.
    + intros -> ->. reflexivity.
  - intros first rest value. unfold single_enum_literal. split.
    + destruct rest; [|discriminate].
      destruct first; try discriminate. intros H.
      split; [reflexivity|]. eauto.
    + intros (-> & c & n & mv & -> & H). exact H.
  - reflexivity.
Qed.

(** ** Optional values *)

Lemma candidates_total self value (l : list ty) :
  Forall (fun c => (exists r, decode self value c = Ok r)
                   \/ passed_over (decode self value c)) l ->
  (exists r, candidates fromisoformat self value l = Ok r)
  \/ passed_over (candidates fromisoformat self value l).
Proof.
  induction 1 as [|c l [(r & Hr)|(e & He & Htv)] _ IH]; cbn [candidates].
  - right. eexists. split; reflexivity.
  - left. exists r. now rewrite Hr.
  - rewrite He. cbn [try_candidate]. rewrite Htv. exact IH.
Qed.

Lemma enum_lookup_total cls members v :
  (exists r, Py.enum_lookup cls members v = Ok r)
  \/ Py.enum_lookup cls members v = Raise (ValueError (MsgInvalidEnum v cls)).
Proof.
  induction members as [|[n mv] ms IH]; simpl; [now right|].
  destruct (Py.eq mv v); [left; eauto | exact IH].
Qed.

(** Induction on an annotation through the forms that [_build_value]
    simply looks through. *)
Lemma ty_union_ind (P : ty -> Prop)
  (Hnew : forall n t, P t -> P (TNewType n t))
  (Hnr : forall t, P t -> P (TNotRequired t))
  (Hun : forall first rest, P first -> Forall P rest -> P (TUnion first rest))
  (Hleaf : forall t,
      match t with
      | TNewType _ _ | TNotRequired _ | TUnion _ _ => False
      | _ => True
      end -> P t)
  : forall t, P t.
Proof.
  exact (fix F (t : ty) : P t :=
    match t as t0 return P t0 with
    | TNewType n s => Hnew n s (F s)
    | TNotRequired a => Hnr a (F a)
    | TUnion first rest =>
        Hun first rest (F first)
          ((fix G (l : list ty) : Forall P l :=
              match l with
              | [] => Forall_nil P
              | x :: l' => Forall_cons x (F x) (G l')
              end) rest)
    | TFloat => Hleaf TFloat I
    | TInt => Hleaf TInt I
    | TStr => Hleaf TStr I
    | TBool => Hleaf TBool I
    | TBytes => Hleaf TBytes I
    | TDate => Hleaf TDate I
    | TDatetime => Hleaf TDatetime I
    | TAny => Hleaf TAny I
    | TNoneType => Hleaf TNoneType I
    | TList a => Hleaf (TList a) I
    | TSet a => Hleaf (TSet a) I
    | TTuple a => Hleaf (TTuple a) I
    | TTupleVar a => Hleaf (TTupleVar a) I
    | TDict k v => Hleaf (TDict k v) I
    | TLiteral f r => Hleaf (TLiteral f r) I
    | TEnum n m => Hleaf (TEnum n m) I
    | TData n f d => Hleaf (TData n f d) I
    end).
Qed.

(** Decoding [None] returns, or raises a type or a value error. *)
Lemma decode_null_total self (T : ty) :
  (exists r, decode self VNone T = Ok r) \/ passed_over (decode self VNone T).
Proof.
  induction T as [n t IH|t IH|first rest IHf IHr|t Hleaf] using ty_union_ind.
  - exact IH.
  - left. now exists VNone.
  - rewrite decode_TUnion. apply candidates_total. now constructor.
  - destruct t; try contradiction;
      try (right; eexists; split; reflexivity);
      try (left; eexists; reflexivity).
    + (* Literal *)
      rewrite decode_TLiteral by reflexivity.
      destruct (single_enum_literal first rest VNone); [left; eauto|].
      destruct (Py.contains (first :: rest) VNone); cbn [negb];
        [left; eauto | right; eexists; split; reflexivity].
    + (* Enum *)
      rewrite decode_TEnum by reflexivity. cbn [Py.enum_call].
      destruct (enum_lookup_total name members VNone) as [H|H];
        [now left | right; rewrite H; eexists; split; reflexivity].
Qed.

Lemma decode_non_null_NoneType self v :
  v <> VNone -> Py.is_dataclass v = false ->
  decode self v TNoneType = Raise (ValueError (MsgNotFit v TNoneType)).
Proof.
  destruct v; intros H1 H2; try reflexivity; [contradiction | discriminate].
Qed.

(** How [Optional[T]] decodes, being [Union[T, None]]: [T] is tried
    first, so [None] is returned for [None] only when [T] refuses it. *)
Lemma optional_decoding :
  forall self,
  decode self VNone (Optional TInt) = Ok VNone
  /\ decode self (VInt 3) (Optional TInt) = Ok (VInt 3)
  /\ (forall T, decode self VNone (TNotRequired T) = Ok VNone)
  /\ (forall T v, v <> VNone ->
        decode self v (TNotRequired T) = decode self v T)
  /\ (forall T,
        decode self VNone (Optional T) = Ok VNone
        \/ exists r, decode self VNone T = Ok r
                     /\ decode self VNone (Optional T) = Ok r)
  /\ (forall T, passed_over (decode self VNone T) ->
        decode self VNone (Optional T) = Ok VNone)
  /\ (forall T v r, decode self v T = Ok r ->
        decode self v (Optional T) = Ok r)
  /\ (forall T v e, v <> VNone -> decode self v T = Raise e ->
        exists e', decode self v (Optional T) = Raise e').
Proof.
  intros self.
  assert (Hrej : forall T, passed_over (decode self VNone T) ->
                           decode self VNone (Optional T) = Ok VNone).
  { intros T (e & He & Htv). unfold Optional. rewrite decode_TUnion.
    cbn [candidates]. rewrite He. cbn [try_candidate]. rewrite Htv.
    reflexivity. }
  assert (Hacc : forall T v r, decode self v T = Ok r ->
                               decode self v (Optional T) = Ok r).
  { intros T v r Hr. unfold Optional. rewrite decode_TUnion.
    cbn [candidates]. rewrite Hr. reflexivity. }
  split; [reflexivity|].
  split; [reflexivity|].
  split; [reflexivity|].
  split.
  { intros T v Hv. rewrite decode_TNotRequired.
    destruct v; try reflexivity. contradiction. }
  split.
  { intros T. destruct (decode_null_total self T) as [(r & Hr)|Hp].
    - right. exists r. split; [exact Hr | now apply Hacc].
    - left. now apply Hrej. }
  split; [exact Hrej|].
  split; [exact Hacc|].
  intros T v e Hv He. unfold Optional. rewrite decode_TUnion.
  cbn [candidates]. rewrite He. cbn [try_candidate].
  destruct (is_type_or_value_error e); [|eauto].
  assert (Hd : Py.is_dataclass v = false).
  { destruct v; try reflexivity. rewrite decode_VData in He. discriminate. }
  rewrite (decode_non_null_NoneType self v Hv Hd). cbn. eauto.
Qed.

(** C8, at the failing input.  [None] against [Optional[int]] is [None]
    and [3] is [3], by way of the union: the origin of [Optional[E]] is
    [Union], the test of line 86 never holds of it, and [E] is tried
    before [NoneType].  For an enum [E] with a member [A] of value [None]
    the union returns [E.A] for [None], where the sibling wrapper
    [NotRequired[E]], whose test is made first, returns [None]. *)
Theorem optional_null_enum_member :
  forall self,
  _build_value fromisoformat self VNone (Optional (TEnum "E" [("A", VNone)]))
  = Ok (VEnum "E" "A" VNone)
  /\ _build_value fromisoformat self VNone
       (TNotRequired (TEnum "E" [("A", VNone)]))
     = Ok VNone
  /\ _build_value fromisoformat self VNone (Optional TInt) = Ok VNone
  /\ _build_value fromisoformat self (VInt 3) (Optional TInt) = Ok (VInt 3).
Proof. intros self. repeat split. Qed.

(** ** Values that are already of the annotated type *)

(** C9.  A value that already has the annotated type is returned as it
    is: a float, an int, a str, a bool, a bytes, a date or a datetime
    against its own class, any value against [Any], a member of an enum
    against its enum, and a dataclass instance against every
    annotation. *)
Theorem decode_idempotent :
  forall self,
  (forall f, _build_value fromisoformat self (VFloat f) TFloat = Ok (VFloat f))
  /\ (forall z, _build_value fromisoformat self (VInt z) TInt = Ok (VInt z))
  /\ (forall s, _build_value fromisoformat self (VStr s) TStr = Ok (VStr s))
  /\ (forall b, _build_value fromisoformat self (VBool b) TBool = Ok (VBool b))
  /\ (forall b,
        _build_value fromisoformat self (VBytes b) TBytes = Ok (VBytes b))
  /\ (forall d, _build_value fromisoformat self (VDate d) TDate = Ok (VDate d))
  /\ (forall d t,
        _build_value fromisoformat self (VDatetime d t) TDatetime
        = Ok (VDatetime d t))
  /\ (forall v, _build_value fromisoformat self v TAny = Ok v)
  /\ (forall name members n mv,
        _build_value fromisoformat self (VEnum name n mv) (TEnum name members)
        = Ok (VEnum name n mv))
  /\ (forall c fs T,
        _build_value fromisoformat self (VData c fs) T = Ok (VData c fs)).
Proof.
  intros self.
  do 7 (split; [reflexivity|]).
  split; [intros v; destruct v; reflexivity|].
  split.
  - intros name members n mv. rewrite decode_TEnum by reflexivity.
    cbn [Py.enum_call]. now rewrite String.eqb_refl.
  - intros. apply decode_VData.
Qed.

(** ** Booleans against the numeric classes *)

(** C10.  A [bool] against [int] is returned as the integer 1 or 0, and
    against [float] as the float 1.0 or 0.0; neither raises. *)
Theorem bool_as_number :
  forall self b,
  _build_value fromisoformat self (VBool b) TInt
  = Ok (VInt (if b then 1 else 0))
  /\ _build_value fromisoformat self (VBool b) TFloat =
     Ok (VFloat (if b then S754_finite false 4503599627370496 (-52)
                 else S754_zero false))
  /\ (exists f, _build_value fromisoformat self (VBool b) TFloat = Ok (VFloat f)
                /\ Py.float_eq_int f (if b then 1 else 0) = true).
Proof.
  intros self [|]; (split; [reflexivity|]); (split; [reflexivity|]);
    eexists; split; reflexivity.
Qed.

(** ** Unknown keys *)

Lemma snake_case_str_dict raw acc :
  foldM snake_case_item acc (map (fun kv => (VStr (fst kv), snd kv)) raw)
  = Ok (snake_fold raw acc).
Proof.
  revert acc. induction raw as [|[k v] raw IH]; intros acc; [reflexivity|].
  cbn [map foldM fst snd snake_case_item bind]. rewrite IH. reflexivity.
Qed.

Lemma sdict_insert_keys d k' v k :
  In k (map fst (Py.sdict_insert d k' v)) <-> k = k' \/ In k (map fst d).
Proof.
  induction d as [|[k'' v''] d IH]; simpl.
  - intuition.
  - destruct (String.eqb k'' k') eqn:E; simpl.
    + apply String.eqb_eq in E. subst. intuition.
    + rewrite IH. intuition.
Qed.

Lemma snake_fold_keys raw acc k :
  In k (map fst (snake_fold raw acc)) <->
  In k (map fst acc) \/ In k (normalized_keys raw).
Proof.
  revert acc. unfold normalized_keys.
  induction raw as [|[k0 v0] raw IH]; intros acc; simpl.
  - intuition.
  - destruct (Str.startswith_underscore k0); simpl.
    + apply IH.
    + unfold snake_fold in IH. rewrite IH, sdict_insert_keys. simpl. intuition.
Qed.

Lemma forallb_false {A : Type} (f : A -> bool) (l : list A) :
  forallb f l = false <-> exists x, In x l /\ f x = false.
Proof.
  induction l as [|a l IH]; simpl.
  - split; [discriminate | intros (x & [] & _)].
  - rewrite andb_false_iff, IH. split.
    + intros [H|(x & Hin & Hx)]; [exists a; auto | exists x; auto].
    + intros (x & [<-|Hin] & Hx); [now left | right; eauto].
Qed.

Lemma build_field_unknown self fields k v :
  Py.mem k (map fst fields) = false ->
  build_field fromisoformat self fields k v = None.
Proof.
  induction fields as [|[k' t] fields IH]; [reflexivity|].
  unfold Py.mem. cbn [map fst existsb build_field].
  intros H. apply orb_false_iff in H as [H1 H2].
  rewrite String.eqb_sym, H1. now apply IH.
Qed.

Lemma transform_known bf names d :
  (forall k v, Py.mem k names = false -> bf k v = None) ->
  transform bf d = transform bf (filter (fun kv => Py.mem (fst kv) names) d).
Proof.
  intros Hbf. induction d as [|[k v] d IH]; [reflexivity|].
  cbn [filter fst transform]. destruct (Py.mem k names) eqn:E.
  - cbn [transform]. now rewrite IH.
  - now rewrite (Hbf k v E).
Qed.

Lemma mem_eqb k k' names :
  String.eqb k' k = true -> Py.mem k' names = Py.mem k names.
Proof. intros H. apply String.eqb_eq in H. now subst. Qed.

Lemma filter_sdict_insert_known names d k v :
  Py.mem k names = true ->
  filter (fun kv => Py.mem (fst kv) names) (Py.sdict_insert d k v) =
  Py.sdict_insert (filter (fun kv => Py.mem (fst kv) names) d) k v.
Proof.
  intros Hk. induction d as [|[k' v'] d IH]; simpl.
  - now rewrite Hk.
  - destruct (String.eqb k' k) eqn:E; simpl.
    + rewrite (mem_eqb _ _ _ E), Hk. simpl. now rewrite E.
    + destruct (Py.mem k' names); simpl; [rewrite E|]; now rewrite IH.
Qed.

Lemma filter_sdict_insert_unknown names d k v :
  Py.mem k names = false ->
  filter (fun kv => Py.mem (fst kv) names) (Py.sdict_insert d k v) =
  filter (fun kv => Py.mem (fst kv) names) d.
Proof.
  intros Hk. induction d as [|[k' v'] d IH]; simpl.
  - now rewrite Hk.
  - destruct (String.eqb k' k) eqn:E; simpl.
    + now rewrite (mem_eqb _ _ _ E), Hk.
    + destruct (Py.mem k' names); now rewrite IH.
Qed.

Lemma snake_fold_known names raw acc :
  filter (fun kv => Py.mem (fst kv) names) (snake_fold raw acc) =
  snake_fold (known_items names raw)
             (filter (fun kv => Py.mem (fst kv) names) acc).
Proof.
  revert acc. induction raw as [|[k0 v0] raw IH]; intros acc; [reflexivity|].
  unfold snake_fold, known_items in *. cbn [fold_left filter fst snd].
  destruct (Str.startswith_underscore k0) eqn:Es; cbn [negb andb].
  - apply IH.
  - destruct (Py.mem (to_snake k0) names) eqn:Em; cbn [fold_left fst snd].
    + rewrite Es, IH. now rewrite filter_sdict_insert_known.
    + rewrite IH. now rewrite filter_sdict_insert_unknown.
Qed.

Lemma decode_record_str_dict self raw name fields defaults :
  decode_record self (str_dict raw) name fields defaults =
  let snake_cased_values := snake_fold raw [] in
  let keys := map fst snake_cased_values in
  let names := map fst fields in
  if negb (allow_unknown_keys self)
     && negb (forallb (fun k => Py.mem k names) keys)
  then Raise (ValueError (MsgUnknownKeys (unknown_keys keys names) names))
  else
    transformed <- transform (build_field fromisoformat self fields)
                             snake_cased_values ;;
    Py.dataclass_call name names defaults transformed.
Proof.
  unfold build_dataclass, build_dataclass_with, str_dict, snake_case.
  rewrite snake_case_str_dict. reflexivity.
Qed.

End Properties.

(** ** The statements at concrete inputs *)

Lemma tuple_pairwise_by_position_witness :
  (exists l, VTuple [VInt 1] = VTuple l
             /\ List.length l = Nat.min 1 2)
  /\ (exists v t, In (v, t) (combine [VStr "a"] [TInt; TInt])
                  /\ _build_value iso_none strict v t
                     = Raise (ValueError (MsgNotFit (VStr "a") TInt)))
  /\ (exists l,
        _build_value iso_none strict (VList [VInt 1]) (TTuple [TInt; TInt])
        = Ok (VTuple l)).
Proof.
  destruct (tuple_pairwise_by_position iso_none strict [VInt 1] [TInt; TInt])
    as (_ & _ & Hlen & _ & Hok).
  destruct (tuple_pairwise_by_position iso_none strict [VStr "a"] [TInt; TInt])
    as (_ & _ & _ & Hraise & _).
  split; [apply Hlen; reflexivity|].
  split; [apply Hraise; reflexivity|].
  apply Hok. intros v t [H|[]]. inversion H; subst. eexists. reflexivity.
Defined.

(** C3, as first stated, asks for a failure when the lengths differ; the
    source zips the two sequences and stops at the shorter. *)
Lemma tuple_arity_mismatch_cex :
  _build_value iso_none strict (VList [VInt 1]) (TTuple [TInt; TInt])
  = Ok (VTuple [VInt 1])
  /\ _build_value iso_none strict (VList [VInt 1; VInt 2; VInt 3])
       (TTuple [TInt; TInt])
     = Ok (VTuple [VInt 1; VInt 2]).
Proof. split; reflexivity. Qed.

(** C2, as first stated, lets only an instance of the target record
    through; the source lets an instance of any other record through as
    well. *)
Lemma passthrough_other_record_cex :
  Py.isinstance (VData "Other" []) (TData "Target" [] []) = Some false
  /\ _build_value iso_none strict (VData "Other" []) (TData "Target" [] [])
     = Ok (VData "Other" []).
Proof. split; reflexivity. Qed.

Lemma union_first_success_witness :
  _build_value iso_none strict (VStr "5") (TUnion TInt [TStr]) = Ok (VStr "5")
  /\ _build_value iso_none strict (VInt (2 ^ 1024)) (TUnion TStr [TFloat; TInt])
     = Raise (OverflowError MsgIntTooLarge)
  /\ _build_value iso_none strict VNone (TUnion TInt [TStr])
     = Raise (ValueError (MsgNotFitUnion VNone)).
Proof.
  split; [|split].
  - destruct (union_first_success iso_none strict (VStr "5") TInt [TStr])
      as (Hfirst & _).
    apply (Hfirst [TInt] TStr []); [reflexivity | | reflexivity].
    constructor; [|constructor]. eexists. split; reflexivity.
  - destruct (union_first_success iso_none strict (VInt (2 ^ 1024)) TStr
                [TFloat; TInt]) as (_ & Hother & _).
    apply (Hother [TStr] TFloat [TInt]);
      [reflexivity | | reflexivity | reflexivity].
    constructor; [|constructor]. eexists. split; reflexivity.
  - destruct (union_first_success iso_none strict VNone TInt [TStr])
      as (_ & _ & Hnone & _).
    apply Hnone.
    constructor; [|constructor; [|constructor]]; eexists; split; reflexivity.
Defined.

Lemma literal_decoding_witness :
  _build_value iso_none strict (VStr "red")
    (TLiteral (VEnum "Color" "RED" (VStr "red")) [])
  = Ok (VEnum "Color" "RED" (VStr "red"))
  /\ _build_value iso_none strict (VStr "b") (TLiteral (VStr "a") [VStr "b"])
     = Ok (VStr "b")
  /\ _build_value iso_none strict (VStr "c") (TLiteral (VStr "a") [VStr "b"])
     = Raise (ValueError (MsgNotFitLiteral (VStr "c")))
  /\ single_enum_literal (VEnum "Color" "RED" (VStr "red")) [] (VStr "red")
     = true.
Proof.
  destruct (literal_decoding iso_none) as (H & Hiff & _).
  split; [|split; [|split]].
  - destruct (H strict (VStr "red") (VEnum "Color" "RED" (VStr "red")) []
                eq_refl) as (Henum & _).
    apply (Henum "Color" "RED" (VStr "red")); reflexivity.
  - destruct (H strict (VStr "b") (VStr "a") [VStr "b"] eq_refl)
      as (_ & Hin & _).
    apply Hin; reflexivity.
  - destruct (H strict (VStr "c") (VStr "a") [VStr "b"] eq_refl)
      as (_ & _ & Hout).
    apply Hout; reflexivity.
  - apply Hiff. split; [reflexivity|].
    exists "Color", "RED", (VStr "red"). split; reflexivity.
Defined.

(** C7, as first stated, asks for the literal's value error whenever the
    raw value is not among the arguments; a dataclass instance is
    returned before the literal is looked at. *)
Lemma literal_dataclass_instance_cex :
  Py.contains [VStr "a"] (VData "Point" []) = false
  /\ _build_value iso_none strict (VData "Point" []) (TLiteral (VStr "a") [])
     = Ok (VData "Point" []).
Proof. split; reflexivity. Qed.

(** C6, as first stated, has every mapping with extra keys decode
    successfully under tolerance; when the only declared field has no
    default and is absent, the construction of the record fails. *)
Lemma tolerant_missing_field_cex :
  build_dataclass iso_none tolerant (str_dict [("unknownKey", VInt 1)])
    "Config" [("known_key", TInt)] []
  = Raise (TypeError (MsgMissingArgs "Config" ["known_key"])).
Proof. reflexivity. Qed.

(** * Further properties of the decoder *)

(** ** Normalized keys *)

Lemma isupper_lower (c : ascii) : Str.isupper (Str.lower c) = false.
Proof. destruct c as [[] [] [] [] [] [] [] []]; reflexivity. Qed.

Lemma lower_not_upper (c : ascii) : Str.isupper c = false -> Str.lower c = c.
Proof. unfold Str.lower. now intros ->. Qed.

Lemma no_upper_app (a b : string) :
  Str.no_upper (a ++ b) = (Str.no_upper a && Str.no_upper b)%bool.
Proof.
  induction a as [|c a IH]; [reflexivity|].
  simpl. rewrite IH. now rewrite andb_assoc.
Qed.

Lemma no_upper_joined (s : string) :
  Str.no_upper (String.concat "" (Str.snake_pieces s)) = true.
Proof.
  induction s as [|c s IH]; [reflexivity|].
  rewrite joined_cons, no_upper_app, IH, andb_true_r.
  destruct (Str.isupper c) eqn:E; simpl.
  - now rewrite isupper_lower.
  - now rewrite E.
Qed.

Lemma no_upper_lstrip (s : string) :
  Str.no_upper s = true -> Str.no_upper (Str.lstrip_underscore s) = true.
Proof.
  induction s as [|c s IH]; [reflexivity|].
  intros H. cbn [Str.lstrip_underscore].
  destruct (Ascii.eqb c Str.underscore); [|exact H].
  apply IH. simpl in H. now apply andb_true_iff in H.
Qed.

Lemma to_snake_no_upper (k : string) : Str.no_upper (to_snake k) = true.
Proof. unfold to_snake. apply no_upper_lstrip, no_upper_joined. Qed.

Lemma to_snake_fixed (k : string) : to_snake (to_snake k) = to_snake k.
Proof.
  unfold to_snake at 1. rewrite (joined_no_upper _ (to_snake_no_upper k)).
  apply lstrip_not_underscore, lstrip_startswith.
Qed.

(** X1.  Normalizing a key twice is normalizing it once: a normalized
    name has no capital letter and no leading underscore. *)
Theorem to_snake_idempotent :
  forall k,
  to_snake (to_snake k) = to_snake k
  /\ Str.no_upper (to_snake k) = true.
Proof.
  intros k. split; [apply to_snake_fixed | apply to_snake_no_upper].
Qed.

Lemma without_underscores_app (a b : string) :
  without_underscores (a ++ b)
  = (without_underscores a ++ without_underscores b)%string.
Proof.
  induction a as [|c a IH]; [reflexivity|].
  simpl. destruct (Ascii.eqb c Str.underscore); simpl; now rewrite IH.
Qed.

Lemma without_underscores_lstrip (s : string) :
  without_underscores (Str.lstrip_underscore s) = without_underscores s.
Proof.
  induction s as [|c s IH]; [reflexivity|].
  simpl. destruct (Ascii.eqb c Str.underscore) eqn:E; [exact IH|].
  simpl. now rewrite E.
Qed.

(** X2.  On a key of ASCII characters normalization only lower-cases
    letters and moves underscores: with the underscores taken out, the
    normalized name is the key in lower case with its underscores taken
    out. *)
Theorem to_snake_letters :
  forall k,
  Str.is_ascii k = true ->
  without_underscores (to_snake k) = without_underscores (lower_all k).
Proof.
  intros k _. unfold to_snake. rewrite without_underscores_lstrip.
  induction k as [|c k IH]; [reflexivity|].
  rewrite joined_cons, without_underscores_app, IH.
  cbn [lower_all without_underscores].
  destruct (Str.isupper c) eqn:E.
  - cbn [without_underscores]. rewrite Ascii.eqb_refl.
    rewrite (lower_not_underscore c E). reflexivity.
  - rewrite (lower_not_upper c E). cbn [without_underscores].
    destruct (Ascii.eqb c Str.underscore); reflexivity.
Qed.

(** ** Dicts with string keys *)

Lemma sdict_insert_twice d k v1 v2 :
  Py.sdict_insert (Py.sdict_insert d k v1) k v2 = Py.sdict_insert d k v2.
Proof.
  induction d as [|[k' v'] d IH]; simpl.
  - now rewrite String.eqb_refl.
  - destruct (String.eqb k' k) eqn:E; simpl; rewrite E; [reflexivity|].
    now rewrite IH.
Qed.

Lemma sdict_get_insert d k v n :
  Py.sdict_get (Py.sdict_insert d k v) n
  = if String.eqb k n then Some v else Py.sdict_get d n.
Proof.
  induction d as [|[k' v'] d IH]; simpl.
  - reflexivity.
  - destruct (String.eqb k' k) eqn:E; simpl.
    + apply String.eqb_eq in E. subst k'.
      destruct (String.eqb k n); reflexivity.
    + rewrite IH. destruct (String.eqb k' n) eqn:E'; [|reflexivity].
      apply String.eqb_eq in E'. subst k'.
      rewrite String.eqb_sym, E. reflexivity.
Qed.

Lemma sdict_get_None d n :
  Py.sdict_get d n = None <-> ~ In n (map fst d).
Proof.
  induction d as [|[k v] d IH]; simpl; [tauto|].
  destruct (String.eqb k n) eqn:E.
  - apply String.eqb_eq in E. subst. split; [discriminate | tauto].
  - apply String.eqb_neq in E. rewrite IH. tauto.
Qed.

Lemma sdict_get_In d n v :
  Py.sdict_get d n = Some v -> In (n, v) d.
Proof.
  induction d as [|[k x] d IH]; simpl; [discriminate|].
  destruct (String.eqb k n) eqn:E.
  - apply String.eqb_eq in E. subst. intros H. inversion H. now left.
  - intros H. right. now apply IH.
Qed.

Lemma sdict_insert_mem d k' v k :
  In k (map fst (Py.sdict_insert d k' v)) <-> k = k' \/ In k (map fst d).
Proof. exact (sdict_insert_keys iso_none d k' v k). Qed.

Lemma snake_fold_mem raw acc k :
  In k (map fst (snake_fold raw acc)) <->
  In k (map fst acc) \/ In k (normalized_keys raw).
Proof. exact (snake_fold_keys iso_none raw acc k). Qed.

Lemma sdict_insert_NoDup d k v :
  NoDup (map fst d) -> NoDup (map fst (Py.sdict_insert d k v)).
Proof.
  induction d as [|[k' v'] d IH]; simpl; intros H.
  - constructor; [tauto | constructor].
  - destruct (String.eqb k' k) eqn:E; simpl; [exact H|].
    inversion H as [|? ? Hn Hd]; subst. constructor; [|now apply IH].
    rewrite sdict_insert_mem. apply String.eqb_neq in E.
    intros [Hk|Hin]; [now apply E | now apply Hn].
Qed.

Lemma snake_fold_app a b acc :
  snake_fold (a ++ b) acc = snake_fold b (snake_fold a acc).
Proof. unfold snake_fold. apply fold_left_app. Qed.

Lemma snake_fold_NoDup raw acc :
  NoDup (map fst acc) -> NoDup (map fst (snake_fold raw acc)).
Proof.
  revert acc. induction raw as [|[k v] raw IH]; intros acc H; [exact H|].
  unfold snake_fold in *. cbn [fold_left fst snd].
  destruct (Str.startswith_underscore k); apply IH; [exact H|].
  now apply sdict_insert_NoDup.
Qed.

Lemma snake_fold_get raw acc n :
  Py.sdict_get (snake_fold raw acc) n
  = fold_left
      (fun a kv =>
         if negb (Str.startswith_underscore (fst kv))
            && String.eqb (to_snake (fst kv)) n
         then Some (snd kv) else a)
      raw (Py.sdict_get acc n).
Proof.
  revert acc. induction raw as [|[k v] raw IH]; intros acc; [reflexivity|].
  unfold snake_fold in *. cbn [fold_left fst snd].
  destruct (Str.startswith_underscore k); cbn [negb andb]; rewrite IH.
  - reflexivity.
  - now rewrite sdict_get_insert.
Qed.

Lemma wire_value_keys raw n :
  wire_value raw n = None <-> ~ In n (normalized_keys raw).
Proof.
  unfold wire_value. pose proof (snake_fold_get raw [] n) as H.
  change (Py.sdict_get [] n) with (@None pyobj) in H.
  rewrite <- H, sdict_get_None, snake_fold_mem.
  simpl. tauto.
Qed.

(** ** The two comprehensions and the constructor call *)

Lemma foldM_app {A S : Type} (f : S -> A -> result S) (l1 l2 : list A) (s : S) :
  foldM f s (l1 ++ l2) = (s' <- foldM f s l1 ;; foldM f s' l2).
Proof.
  revert s. induction l1 as [|a l1 IH]; intros s; [reflexivity|].
  simpl. destruct (f s a); simpl; [apply IH | reflexivity].
Qed.

Lemma transform_keys bf d tr :
  transform bf d = Ok tr -> forall k, In k (map fst tr) -> In k (map fst d).
Proof.
  revert tr. induction d as [|[k v] d IH]; simpl; intros tr H k' Hin.
  - inversion H; subst. exact Hin.
  - destruct (bf k v) as [[x|e]|]; simpl in H.
    + destruct (transform bf d) as [xs|e]; simpl in H; [|discriminate].
      inversion H; subst. destruct Hin as [<-|Hin]; [now left|].
      right. now apply (IH xs).
    + discriminate.
    + right. now apply (IH tr).
Qed.

Lemma transform_get bf d tr :
  transform bf d = Ok tr -> NoDup (map fst d) ->
  forall k,
  match Py.sdict_get d k with
  | None => Py.sdict_get tr k = None
  | Some v =>
      (bf k v = None /\ Py.sdict_get tr k = None)
      \/ (exists x, bf k v = Some (Ok x) /\ Py.sdict_get tr k = Some x)
  end.
Proof.
  revert tr. induction d as [|[k0 v0] d IH]; simpl; intros tr H Hnd k.
  - inversion H; subst. reflexivity.
  - inversion Hnd as [|? ? Hn Hd]; subst.
    destruct (String.eqb k0 k) eqn:E.
    + apply String.eqb_eq in E. subst k0.
      assert (Hk : Py.sdict_get d k = None) by now apply sdict_get_None.
      destruct (bf k v0) as [[x|e]|]; simpl in H.
      * destruct (transform bf d) as [xs|e]; simpl in H; [|discriminate].
        inversion H; subst. right. exists x. split; [reflexivity|].
        simpl. now rewrite String.eqb_refl.
      * discriminate.
      * left. split; [reflexivity|].
        specialize (IH tr H Hd k). now rewrite Hk in IH.
    + destruct (bf k0 v0) as [[x|e]|]; simpl in H.
      * destruct (transform bf d) as [xs|e]; simpl in H; [|discriminate].
        inversion H; subst. simpl. rewrite E. now apply IH.
      * discriminate.
      * now apply IH.
Qed.

Lemma init_fields_spec names defaults kwargs :
  let (bound, missing) := Py.init_fields names defaults kwargs in
  missing = filter (fun n => match Py.sdict_get kwargs n with
                             | Some _ => false
                             | None => match Py.sdict_get defaults n with
                                       | Some _ => false
                                       | None => true
                                       end
                             end) names
  /\ (missing = [] -> map fst bound = names)
  /\ (forall n x, In (n, x) bound ->
        In n names
        /\ (Py.sdict_get kwargs n = Some x
            \/ (Py.sdict_get kwargs n = None
                /\ Py.sdict_get defaults n = Some x))).
Proof.
  induction names as [|n names IH]; simpl.
  - repeat split; intros; contradiction.
  - destruct (Py.init_fields names defaults kwargs) as [bound missing].
    destruct IH as (Hm & Hb & Hin).
    destruct (Py.sdict_get kwargs n) as [v|] eqn:Ek;
      [|destruct (Py.sdict_get defaults n) as [v|] eqn:Ed].
    + split; [exact Hm|]. split.
      * intros E. simpl. f_equal. now apply Hb.
      * intros n' x [H|H].
        -- inversion H; subst. split; [now left | now left].
        -- destruct (Hin n' x H) as (H1 & H2). split; [now right | exact H2].
    + split; [exact Hm|]. split.
      * intros E. simpl. f_equal. now apply Hb.
      * intros n' x [H|H].
        -- inversion H; subst. split; [now left | right; now split].
        -- destruct (Hin n' x H) as (H1 & H2). split; [now right | exact H2].
    + split; [now rewrite Hm|]. split; [discriminate|].
      intros n' x H. destruct (Hin n' x H) as (H1 & H2).
      split; [now right | exact H2].
Qed.

Lemma dataclass_call_shape cls names defaults kwargs r :
  Py.dataclass_call cls names defaults kwargs = Ok r ->
  exists bound,
    r = VData cls bound /\ map fst bound = names
    /\ forall n x, In (n, x) bound ->
         Py.sdict_get kwargs n = Some x
         \/ (Py.sdict_get kwargs n = None /\ Py.sdict_get defaults n = Some x).
Proof.
  unfold Py.dataclass_call.
  pose proof (init_fields_spec names defaults kwargs) as H.
  destruct (Py.init_fields names defaults kwargs) as [bound missing].
  destruct H as (_ & Hb & Hin).
  destruct missing; [|discriminate]. intros E. inversion E; subst.
  exists bound. split; [reflexivity|]. split; [now apply Hb|].
  intros n x Hx. now apply (Hin n x).
Qed.

Lemma to_snake_not_private (k : string) :
  Str.startswith_underscore (to_snake k) = false.
Proof. apply lstrip_startswith. Qed.

Lemma snake_fold_normalized raw acc :
  snake_fold (normalized_items raw) acc = snake_fold raw acc.
Proof.
  revert acc. induction raw as [|[k v] raw IH]; intros acc; [reflexivity|].
  unfold snake_fold, normalized_items in *. cbn [filter map fold_left fst snd].
  destruct (Str.startswith_underscore k) eqn:E;
    cbn [negb map fold_left fst snd].
  - apply IH.
  - rewrite to_snake_not_private, to_snake_fixed. apply IH.
Qed.

(** ** Records *)

Section RecordProperties.

Variable fromisoformat : string -> option (Z * Z).
Variable json_loads : pyobj -> result pyobj.

Lemma build_field_In self fields n t v :
  NoDup (map fst fields) -> In (n, t) fields ->
  build_field fromisoformat self fields n v
  = Some (_build_value fromisoformat self v t).
Proof.
  induction fields as [|[k' t'] fields IH]; simpl; intros Hnd Hin;
    [contradiction|].
  inversion Hnd as [|? ? Hn Hd]; subst.
  destruct Hin as [H|H].
  - inversion H; subst. now rewrite String.eqb_refl.
  - destruct (String.eqb k' n) eqn:E; [|now apply IH].
    apply String.eqb_eq in E. subst k'. exfalso. apply Hn.
    change n with (fst (n, t)). now apply in_map.
Qed.

Lemma build_dataclass_same_snake self raw raw' name fields defaults :
  snake_fold raw [] = snake_fold raw' [] ->
  build_dataclass fromisoformat self (str_dict raw) name fields defaults
  = build_dataclass fromisoformat self (str_dict raw') name fields defaults.
Proof.
  intros E. rewrite !decode_record_str_dict. cbv zeta. now rewrite E.
Qed.

(** X3.  When two neighbouring keys of a message have the same
    normalized name, the later one decides: the record decodes as if the
    earlier item were absent, and its value is never looked at. *)
Theorem later_key_wins :
  forall self pre k1 v1 k2 v2 post name fields defaults,
  Str.startswith_underscore k1 = false ->
  Str.startswith_underscore k2 = false ->
  to_snake k1 = to_snake k2 ->
  build_dataclass fromisoformat self
    (str_dict (pre ++ (k1, v1) :: (k2, v2) :: post)) name fields defaults
  = build_dataclass fromisoformat self
      (str_dict (pre ++ (k2, v2) :: post)) name fields defaults.
Proof.
  intros self pre k1 v1 k2 v2 post name fields defaults H1 H2 E.
  apply build_dataclass_same_snake. rewrite !snake_fold_app.
  unfold snake_fold. cbn [fold_left fst snd].
  rewrite H1, H2, E, sdict_insert_twice. reflexivity.
Qed.

(** X4.  A key that starts with an underscore is private: the record
    decodes as if the item were absent, whatever its value and wherever
    it stands in the message. *)
Theorem private_keys_ignored :
  forall self pre k v post name fields defaults,
  Str.startswith_underscore k = true ->
  build_dataclass fromisoformat self
    (str_dict (pre ++ (k, v) :: post)) name fields defaults
  = build_dataclass fromisoformat self
      (str_dict (pre ++ post)) name fields defaults.
Proof.
  intros self pre k v post name fields defaults H.
  apply build_dataclass_same_snake. rewrite !snake_fold_app.
  unfold snake_fold. cbn [fold_left fst snd]. now rewrite H.
Qed.

(** X5.  A message whose keys are of ASCII characters and the same
    message with its keys already in normalized form (and its private
    keys removed) decode alike: camel case and underscore keys are
    interchangeable. *)
Theorem normalized_message_same :
  forall self raw name fields defaults,
  Forall (fun kv => Str.is_ascii (fst kv) = true) raw ->
  build_dataclass fromisoformat self (str_dict raw) name fields defaults
  = build_dataclass fromisoformat self (str_dict (normalized_items raw))
      name fields defaults.
Proof.
  intros self raw name fields defaults _. apply build_dataclass_same_snake.
  symmetry. apply snake_fold_normalized.
Qed.

Lemma build_dataclass_shape self values name fields defaults r :
  build_dataclass fromisoformat self values name fields defaults = Ok r ->
  exists bound, r = VData name bound /\ map fst bound = map fst fields.
Proof.
  unfold build_dataclass, build_dataclass_with.
  destruct values; try discriminate.
  destruct (snake_case items) as [d|e]; cbn [bind]; [|discriminate].
  destruct (negb (allow_unknown_keys self) && _); [discriminate|].
  destruct (transform _ d) as [tr|e]; cbn [bind]; [|discriminate].
  intros H.
  destruct (dataclass_call_shape _ _ _ _ _ H) as (bound & -> & Hb & _).
  now exists bound.
Qed.

(** X6.  Whatever the message, a record that [build_dataclass] or
    [parse_raw] returns is an instance of the target class with every
    declared field bound once, in declaration order. *)
Theorem decoded_record_shape :
  forall self allow values name fields defaults r,
  (build_dataclass fromisoformat self values name fields defaults = Ok r ->
   exists bound, r = VData name bound /\ map fst bound = map fst fields)
  /\ (parse_raw fromisoformat json_loads values name fields defaults allow
      = Ok r ->
      exists bound, r = VData name bound /\ map fst bound = map fst fields).
Proof.
  intros self allow values name fields defaults r. split.
  - apply build_dataclass_shape.
  - unfold parse_raw. intros H.
    assert (Hd : exists v,
               build_dataclass fromisoformat (Build_DataclassParser allow)
                 v name fields defaults = Ok r).
    { destruct values; try (destruct (json_loads _) as [v|e]; cbn [bind] in H;
                            [now exists v | discriminate]).
      now exists (VDict items). }
    destruct Hd as (v & Hv). exact (build_dataclass_shape _ _ _ _ _ _ Hv).
Qed.

(** X7.  A declared field that has no default and that no key of the
    message names makes the decoding fail: no record is returned without
    it. *)
Theorem required_field_missing :
  forall self raw name fields defaults f,
  In f (map fst fields) ->
  Py.sdict_get defaults f = None ->
  ~ In f (normalized_keys raw) ->
  forall r,
  build_dataclass fromisoformat self (str_dict raw) name fields defaults
  <> Ok r.
Proof.
  intros self raw name fields defaults f Hf Hd Hk r.
  rewrite decode_record_str_dict. cbv zeta.
  destruct (negb (allow_unknown_keys self) && _); [discriminate|].
  destruct (transform _ (snake_fold raw [])) as [tr|e] eqn:Et; cbn [bind];
    [|discriminate].
  unfold Py.dataclass_call.
  pose proof (init_fields_spec (map fst fields) defaults tr) as H.
  destruct (Py.init_fields (map fst fields) defaults tr) as [bound missing].
  destruct H as (Hm & _).
  assert (Hin : In f missing).
  { rewrite Hm. apply filter_In. split; [exact Hf|].
    assert (Ht : Py.sdict_get tr f = None).
    { apply sdict_get_None. intros Hin.
      apply (transform_keys _ _ _ Et) in Hin.
      apply snake_fold_mem in Hin. destruct Hin as [[]|Hin]. now apply Hk. }
    now rewrite Ht, Hd. }
  destruct missing; [contradiction | discriminate].
Qed.

(** X8.  The empty mapping decodes to the record of the defaults when
    every field has one, and otherwise raises a type error that names
    exactly the fields without a default. *)
Theorem empty_message :
  forall self name fields defaults,
  (required (map fst fields) defaults = [] ->
   exists bound,
     build_dataclass fromisoformat self (VDict []) name fields defaults
     = Ok (VData name bound)
     /\ map fst bound = map fst fields
     /\ forall n x, In (n, x) bound -> Py.sdict_get defaults n = Some x)
  /\ (required (map fst fields) defaults <> [] ->
      build_dataclass fromisoformat self (VDict []) name fields defaults
      = Raise (TypeError
                 (MsgMissingArgs name (required (map fst fields) defaults)))).
Proof.
  intros self name fields defaults.
  assert (E : build_dataclass fromisoformat self (VDict []) name fields defaults
              = Py.dataclass_call name (map fst fields) defaults []).
  { unfold build_dataclass, build_dataclass_with. cbn.
    now rewrite andb_false_r. }
  rewrite E. unfold Py.dataclass_call.
  pose proof (init_fields_spec (map fst fields) defaults []) as H.
  destruct (Py.init_fields (map fst fields) defaults []) as [bound missing].
  destruct H as (Hm & Hb & Hin).
  change (missing = required (map fst fields) defaults) in Hm.
  rewrite <- Hm. split.
  - intros ->. exists bound. split; [reflexivity|]. split; [now apply Hb|].
    intros n x Hx. destruct (Hin n x Hx) as (_ & [H|[_ H]]);
      [discriminate H | exact H].
  - intros Hne. destruct missing; [contradiction | reflexivity].
Qed.

(** X9.  A key that is not a string makes the decoding of a record raise
    an attribute error, and this error is not one that a union passes
    over: a union whose first candidate is a record raises it at once,
    whatever its other candidates. *)
Theorem non_string_key :
  forall self pre k v post name fields defaults rest,
  Py.is_str k = false -> (forall b, k <> VBytes b) ->
  let values :=
    VDict (map (fun kv => (VStr (fst kv), snd kv)) pre ++ (k, v) :: post) in
  build_dataclass fromisoformat self values name fields defaults
  = Raise (AttributeError (MsgNoStartswith k))
  /\ _build_value fromisoformat self values
       (TUnion (TData name fields defaults) rest)
     = Raise (AttributeError (MsgNoStartswith k)).
Proof.
  intros self pre k v post name fields defaults rest Hs Hb values.
  assert (E : build_dataclass fromisoformat self values name fields defaults
              = Raise (AttributeError (MsgNoStartswith k))).
  { unfold build_dataclass, build_dataclass_with, values, snake_case.
    rewrite foldM_app, snake_case_str_dict. cbn [bind foldM].
    assert (Hi : forall acc, snake_case_item acc (k, v)
                             = Raise (AttributeError (MsgNoStartswith k))).
    { intros acc. unfold snake_case_item. cbn [fst].
      destruct k; try reflexivity; [discriminate Hs | now elim (Hb b)]. }
    rewrite Hi. reflexivity. }
  split; [exact E|].
  rewrite decode_TUnion. cbn [candidates].
  rewrite decode_TData. unfold values at 1. cbn [Py.is_dataclass].
  fold values. rewrite E. reflexivity.
Qed.

(** X10.  A returned record is sound for the message: each field is bound
    to the decoding, against the type of the field, of the value that the
    message gives for the name of the field (the last one, when several
    keys normalize to that name), and to its default when the message
    gives none. *)
Theorem decoded_record_sound :
  forall self raw name fields defaults r,
  NoDup (map fst fields) ->
  build_dataclass fromisoformat self (str_dict raw) name fields defaults
  = Ok r ->
  exists bound,
    r = VData name bound
    /\ map fst bound = map fst fields
    /\ forall n x, In (n, x) bound ->
         exists t, In (n, t) fields
           /\ match wire_value raw n with
              | Some v => _build_value fromisoformat self v t = Ok x
              | None => Py.sdict_get defaults n = Some x
              end.
Proof.
  intros self raw name fields defaults r Hnd.
  rewrite decode_record_str_dict. cbv zeta.
  destruct (negb (allow_unknown_keys self) && _); [discriminate|].
  destruct (transform _ (snake_fold raw [])) as [tr|e] eqn:Et; cbn [bind];
    [|discriminate].
  intros H.
  destruct (dataclass_call_shape _ _ _ _ _ H) as (bound & -> & Hb & Hx).
  exists bound. split; [reflexivity|]. split; [exact Hb|].
  intros n x Hin.
  assert (Hn : In n (map fst fields)).
  { rewrite <- Hb. change n with (fst (n, x)). now apply in_map. }
  apply in_map_iff in Hn. destruct Hn as ([n' t] & Hn' & Ht).
  simpl in Hn'. subst n'. exists t. split; [exact Ht|].
  pose proof (transform_get _ _ _ Et (snake_fold_NoDup raw [] (NoDup_nil _)) n)
    as Hg.
  pose proof (snake_fold_get raw [] n) as Hw.
  change (Py.sdict_get [] n) with (@None pyobj) in Hw.
  fold (wire_value raw n) in Hw. rewrite Hw in Hg.
  destruct (wire_value raw n) as [v|].
  - rewrite (build_field_In self fields n t v Hnd Ht) in Hg.
    destruct Hg as [(Hbf & _)|(x' & Hbf & Hg)]; [discriminate|].
    inversion Hbf as [Hv].
    destruct (Hx n x Hin) as [Hk|(Hk & _)]; congruence.
  - destruct (Hx n x Hin) as [Hk|(_ & Hd)]; [congruence | exact Hd].
Qed.

End RecordProperties.

(** ** Unknown keys and what is left of the message *)

Lemma transform_total bf d :
  (forall k v, In (k, v) d ->
     bf k v = None \/ exists x, bf k v = Some (Ok x)) ->
  exists tr, transform bf d = Ok tr.
Proof.
  induction d as [|[k v] d IH]; intros H; [now exists []|].
  destruct IH as (tr & Htr); [intros; apply H; now right|].
  cbn [transform]. destruct (H k v (or_introl eq_refl)) as [Hb|(x & Hb)];
    rewrite Hb.
  - now exists tr.
  - cbn [bind]. rewrite Htr. cbn [bind]. now exists ((k, x) :: tr).
Qed.

Lemma sdict_get_NoDup d k v :
  NoDup (map fst d) -> In (k, v) d -> Py.sdict_get d k = Some v.
Proof.
  induction d as [|[k' v'] d IH]; simpl; intros Hnd Hin; [contradiction|].
  inversion Hnd as [|? ? Hn Hd]; subst.
  destruct Hin as [H|H].
  - inversion H; subst. now rewrite String.eqb_refl.
  - destruct (String.eqb k' k) eqn:E; [|now apply IH].
    apply String.eqb_eq in E. subst k'. exfalso. apply Hn.
    change k with (fst (k, v)). now apply in_map.
Qed.

Lemma filter_nil {A : Type} (f : A -> bool) (l : list A) :
  (forall x, In x l -> f x = false) -> filter f l = [].
Proof.
  induction l as [|a l IH]; intros H; [reflexivity|].
  simpl. rewrite (H a (or_introl eq_refl)). apply IH.
  intros x Hx. apply H. now right.
Qed.

Section UnknownKeys.

Variable fromisoformat : string -> option (Z * Z).

Local Abbreviation decode_record := (build_dataclass fromisoformat).

Lemma snake_fold_wire raw n :
  Py.sdict_get (snake_fold raw []) n = wire_value raw n.
Proof. apply (snake_fold_get raw [] n). Qed.

(** Past the check of the keys, a message whose values decode and that
    names every field without a default gives a record, and the record
    is that of the decoded values and of the defaults. *)
Lemma record_of_decodable_message self raw name fields defaults :
  (allow_unknown_keys self = true
   \/ forall k, In k (normalized_keys raw) -> In k (map fst fields)) ->
  NoDup (map fst fields) ->
  (forall n t v, In (n, t) fields -> wire_value raw n = Some v ->
     exists x, _build_value fromisoformat self v t = Ok x) ->
  (forall n, In n (map fst fields) -> Py.sdict_get defaults n = None ->
     In n (normalized_keys raw)) ->
  exists bound,
    decode_record self (str_dict raw) name fields defaults
    = Ok (VData name bound)
    /\ map fst bound = map fst fields
    /\ forall n x, In (n, x) bound ->
         exists t, In (n, t) fields
           /\ match wire_value raw n with
              | Some v => _build_value fromisoformat self v t = Ok x
              | None => Py.sdict_get defaults n = Some x
              end.
Proof.
  intros Hcheck Hnd Hdec Hreq.
  pose proof (snake_fold_NoDup raw [] (NoDup_nil _)) as Hd.
  rewrite decode_record_str_dict. cbv zeta.
  assert (Hpass : negb (allow_unknown_keys self)
                  && negb (forallb (fun k => Py.mem k (map fst fields))
                                   (map fst (snake_fold raw []))) = false).
  { destruct Hcheck as [Ht|Hall]; [now rewrite Ht|].
    assert (Hf : forallb (fun k => Py.mem k (map fst fields))
                         (map fst (snake_fold raw [])) = true).
    { apply forallb_forall. intros k Hk. apply mem_In, Hall.
      apply snake_fold_mem in Hk. destruct Hk as [[]|Hk]. exact Hk. }
    rewrite Hf. apply andb_false_r. }
  rewrite Hpass.
  (* the comprehension of the fields *)
  assert (Hbf : forall n v, In n (map fst fields) ->
                  wire_value raw n = Some v ->
                  exists t x, In (n, t) fields
                    /\ build_field fromisoformat self fields n v = Some (Ok x)
                    /\ _build_value fromisoformat self v t = Ok x).
  { intros n v Hn Hw. apply in_map_iff in Hn.
    destruct Hn as ([n' t] & Hn' & Ht). simpl in Hn'. subst n'.
    destruct (Hdec n t v Ht Hw) as (x & Hx).
    exists t, x. split; [exact Ht|]. split; [|exact Hx].
    now rewrite (build_field_In fromisoformat self fields n t v Hnd Ht), Hx. }
  destruct (transform_total (build_field fromisoformat self fields)
              (snake_fold raw [])) as (tr & Htr).
  { intros k v Hin.
    pose proof (sdict_get_NoDup _ _ _ Hd Hin) as Hg.
    rewrite snake_fold_wire in Hg.
    destruct (Py.mem k (map fst fields)) eqn:Em.
    - apply mem_In in Em. destruct (Hbf k v Em Hg) as (t & x & _ & Hb & _).
      right. now exists x.
    - left. now apply build_field_unknown. }
  rewrite Htr. cbn [bind].
  pose proof (transform_get _ _ _ Htr Hd) as Hget.
  (* the call of the constructor *)
  unfold Py.dataclass_call.
  pose proof (init_fields_spec (map fst fields) defaults tr) as Hi.
  destruct (Py.init_fields (map fst fields) defaults tr) as [bound missing].
  destruct Hi as (Hm & Hb & Hin).
  assert (Hnone : missing = []).
  { rewrite Hm. apply filter_nil. intros n Hn.
    destruct (Py.sdict_get tr n) eqn:Et; [reflexivity|].
    destruct (Py.sdict_get defaults n) eqn:Edf; [reflexivity|].
    exfalso. pose proof (Hreq n Hn Edf) as Hk.
    destruct (wire_value raw n) as [v|] eqn:Ew;
      [|now apply (proj1 (wire_value_keys raw n) Ew)].
    specialize (Hget n). rewrite snake_fold_wire, Ew in Hget.
    destruct (Hbf n v Hn Ew) as (t & x & _ & Hbx & _).
    destruct Hget as [(Hbn & _)|(x' & _ & Hx')]; congruence. }
  destruct missing; [clear Hnone | discriminate Hnone].
  exists bound. split; [reflexivity|].
  split; [now apply Hb|].
  intros n x Hx. destruct (Hin n x Hx) as (Hn & Hv).
  pose proof Hn as Hn'. apply in_map_iff in Hn'.
  destruct Hn' as ([n' t] & Hn' & Ht). simpl in Hn'. subst n'.
  exists t. split; [exact Ht|].
  specialize (Hget n). rewrite snake_fold_wire in Hget.
  destruct (wire_value raw n) as [v|] eqn:Ew.
  - destruct (Hbf n v Hn Ew) as (t' & x' & _ & Hbx & _).
    rewrite (build_field_In fromisoformat self fields n t v Hnd Ht) in Hbx.
    destruct Hget as [(Hbn & _)|(x'' & Hb'' & Hx'')].
    + rewrite (build_field_In fromisoformat self fields n t v Hnd Ht) in Hbn.
      discriminate.
    + rewrite (build_field_In fromisoformat self fields n t v Hnd Ht) in Hb''.
      destruct Hv as [Hk|(Hk & _)]; congruence.
  - destruct Hv as [Hk|(_ & Hdf)]; [congruence | exact Hdf].
Qed.

(** C6 (as amended).  For a wire mapping with string keys and a target
    dataclass.  Without tolerance, the decoding of the record raises the
    unknown-keys value error exactly when a normalized, non-private key
    is not a declared field: it then names those keys and the whole set
    of fields, and otherwise the check does nothing.  With tolerance the
    extra keys are ignored: the mapping decodes as it does without them,
    and it succeeds whenever the remaining keys decode and every field
    without a default is present, the record then holding the decoded
    values and the defaults; [{"unknownKey": 1}] against a record whose
    only field [known_key] has a default is accepted with tolerance and
    refused without. *)
Theorem unknown_keys_check :
  forall self raw name fields defaults,
  let names := map fst fields in
  (allow_unknown_keys self = false ->
   (exists k, In k (normalized_keys raw) /\ ~ In k names) ->
   exists unknown,
     decode_record self (str_dict raw) name fields defaults
     = Raise (ValueError (MsgUnknownKeys unknown names))
     /\ forall k, In k unknown <-> In k (normalized_keys raw) /\ ~ In k names)
  /\ (allow_unknown_keys self = false ->
      (forall k, In k (normalized_keys raw) -> In k names) ->
      decode_record self (str_dict raw) name fields defaults
      = build_dataclass_with (build_field fromisoformat self fields) tolerant
          (str_dict raw) name names defaults)
  /\ (allow_unknown_keys self = true ->
      decode_record self (str_dict raw) name fields defaults
      = decode_record self (str_dict (known_items names raw))
          name fields defaults)
  /\ (allow_unknown_keys self = true ->
      NoDup names ->
      (forall n t v, In (n, t) fields -> wire_value raw n = Some v ->
         exists x, _build_value fromisoformat self v t = Ok x) ->
      (forall n, In n names -> Py.sdict_get defaults n = None ->
         In n (normalized_keys raw)) ->
      exists bound,
        decode_record self (str_dict raw) name fields defaults
        = Ok (VData name bound)
        /\ map fst bound = names
        /\ forall n x, In (n, x) bound ->
             exists t, In (n, t) fields
               /\ match wire_value raw n with
                  | Some v => _build_value fromisoformat self v t = Ok x
                  | None => Py.sdict_get defaults n = Some x
                  end)
  /\ decode_record tolerant (str_dict [("unknownKey", VInt 1)])
       "Config" [("known_key", TInt)] [("known_key", VInt 0)]
     = Ok (VData "Config" [("known_key", VInt 0)])
  /\ decode_record strict (str_dict [("unknownKey", VInt 1)])
       "Config" [("known_key", TInt)] [("known_key", VInt 0)]
     = Raise (ValueError (MsgUnknownKeys ["unknown_key"] ["known_key"])).
Proof.
  intros self raw name fields defaults names.
  assert (Hkeys : forall k, In k (map fst (snake_fold raw [])) <->
                            In k (normalized_keys raw)).
  { intros k. rewrite snake_fold_mem. simpl. tauto. }
  split; [|split; [|split; [|split; [|split; reflexivity]]]].
  - intros Hs (k & Hk & Hnk).
    rewrite decode_record_str_dict. cbv zeta. fold names. rewrite Hs.
    assert (Hf : forallb (fun k => Py.mem k names) (map fst (snake_fold raw []))
                 = false).
    { apply forallb_false. exists k. split; [now apply Hkeys|].
      destruct (Py.mem k names) eqn:E; [|reflexivity].
      apply mem_In in E. contradiction. }
    rewrite Hf. cbn [negb andb]. eexists. split; [reflexivity|].
    intros k'. unfold unknown_keys. rewrite filter_In, Hkeys, negb_true_iff.
    split; intros [H1 H2]; (split; [exact H1|]).
    + intros Hin. apply mem_In in Hin. congruence.
    + destruct (Py.mem k' names) eqn:E; [|reflexivity].
      apply mem_In in E. contradiction.
  - intros Hs Hall.
    rewrite decode_record_str_dict. cbv zeta. fold names. rewrite Hs.
    assert (Hf : forallb (fun k => Py.mem k names) (map fst (snake_fold raw []))
                 = true).
    { apply forallb_forall. intros k Hk. apply mem_In, Hall, Hkeys, Hk. }
    rewrite Hf. cbn [negb andb].
    unfold build_dataclass_with, str_dict, snake_case.
    rewrite snake_case_str_dict. reflexivity.
  - intros Ht. rewrite !decode_record_str_dict. cbv zeta. fold names.
    rewrite Ht. cbn [negb andb].
    rewrite (transform_known _ names (snake_fold raw []))
      by (intros; now apply build_field_unknown).
    rewrite snake_fold_known. reflexivity.
  - intros Ht Hnd Hdec Hreq.
    apply record_of_decodable_message; [now left | exact Hnd | exact Hdec|].
    exact Hreq.
Qed.

End UnknownKeys.

Lemma unknown_keys_check_witness :
  (exists unknown,
      build_dataclass iso_none strict (str_dict [("unknownKey", VInt 1)])
        "Config" [("known_key", TInt)] []
      = Raise (ValueError (MsgUnknownKeys unknown ["known_key"]))
      /\ forall k, In k unknown <->
                   In k (normalized_keys [("unknownKey", VInt 1)])
                   /\ ~ In k ["known_key"])
  /\ build_dataclass iso_none strict (str_dict [("knownKey", VInt 1)])
       "Config" [("known_key", TInt)] []
     = build_dataclass_with (build_field iso_none strict [("known_key", TInt)])
         tolerant (str_dict [("knownKey", VInt 1)]) "Config" ["known_key"] []
  /\ build_dataclass iso_none tolerant
       (str_dict [("unknownKey", VInt 1); ("knownKey", VInt 2)])
       "Config" [("known_key", TInt)] []
     = build_dataclass iso_none tolerant (str_dict [("knownKey", VInt 2)])
         "Config" [("known_key", TInt)] []
  /\ (exists bound,
        build_dataclass iso_none tolerant
          (str_dict [("unknownKey", VInt 1); ("knownKey", VInt 2)])
          "Config" [("known_key", TInt); ("other", TStr)] [("other", VNone)]
        = Ok (VData "Config" bound)
        /\ map fst bound = ["known_key"; "other"]
        /\ forall n x, In (n, x) bound ->
             exists t, In (n, t) [("known_key", TInt); ("other", TStr)]
               /\ match wire_value
                          [("unknownKey", VInt 1); ("knownKey", VInt 2)] n with
                  | Some v => _build_value iso_none tolerant v t = Ok x
                  | None => Py.sdict_get [("other", VNone)] n = Some x
                  end).
Proof.
  split; [|split; [|split]].
  - destruct (unknown_keys_check iso_none strict [("unknownKey", VInt 1)]
                "Config" [("known_key", TInt)] []) as (Hunknown & _).
    apply Hunknown; [reflexivity|].
    exists "unknown_key". split; [left; reflexivity|].
    intros [H|[]]. discriminate H.
  - destruct (unknown_keys_check iso_none strict [("knownKey", VInt 1)]
                "Config" [("known_key", TInt)] []) as (_ & Hknown & _).
    apply Hknown; [reflexivity|].
    intros k [<-|[]]. left. reflexivity.
  - destruct (unknown_keys_check iso_none tolerant
                [("unknownKey", VInt 1); ("knownKey", VInt 2)]
                "Config" [("known_key", TInt)] []) as (_ & _ & Htol & _).
    apply Htol. reflexivity.
  - destruct (unknown_keys_check iso_none tolerant
                [("unknownKey", VInt 1); ("knownKey", VInt 2)]
                "Config" [("known_key", TInt); ("other", TStr)]
                [("other", VNone)]) as (_ & _ & _ & Hok & _).
    apply Hok.
    + reflexivity.
    + repeat constructor; simpl; intuition discriminate.
    + intros n t v [H|[H|[]]] Hw; inversion H; subst;
        vm_compute in Hw; inversion Hw; subst; eexists; reflexivity.
    + intros n [<-|[<-|[]]] Hd; vm_compute in Hd; [|discriminate Hd].
      vm_compute. right. left. reflexivity.
Defined.

(** ** Containers *)

Lemma mapM_Forall2 {A B : Type} (f : A -> result B) (l : list A) (l' : list B) :
  mapM f l = Ok l' <-> Forall2 (fun a b => f a = Ok b) l l'.
Proof.
  revert l'. induction l as [|a l IH]; intros l'; simpl.
  - split; intros H; [inversion H; constructor | now inversion H].
  - split.
    + destruct (f a) as [b|e] eqn:Ea; simpl; [|discriminate].
      destruct (mapM f l) as [bs|e]; simpl; [|discriminate].
      intros H. inversion H; subst. constructor; [exact Ea | now apply IH].
    + intros H. inversion H as [|? b ? bs Hb Hbs]; subst.
      rewrite Hb. simpl. apply IH in Hbs. now rewrite Hbs.
Qed.

Lemma mapM_first_raise {A B : Type} (f : A -> result B) pre a post e :
  Forall (fun p => exists b, f p = Ok b) pre -> f a = Raise e ->
  mapM f (pre ++ a :: post) = Raise e.
Proof.
  intros Hpre Ha. induction Hpre as [|p pre (b & Hb) _ IH]; simpl.
  - now rewrite Ha.
  - now rewrite Hb, IH.
Qed.

Lemma mapM_fixed {A : Type} (f : A -> result A) (l : list A) :
  Forall (fun a => f a = Ok a) l -> mapM f l = Ok l.
Proof.
  induction 1 as [|a l Ha _ IH]; simpl; [reflexivity|].
  now rewrite Ha, IH.
Qed.

Lemma foldM_invariant {A S : Type} (f : S -> A -> result S) (P : S -> Prop)
  (l : list A) :
  (forall s a s', In a l -> P s -> f s a = Ok s' -> P s') ->
  forall s s', P s -> foldM f s l = Ok s' -> P s'.
Proof.
  induction l as [|a l IH]; simpl; intros Hstep s s' Hs H.
  - now inversion H; subst.
  - destruct (f s a) as [s1|e] eqn:E; simpl in H; [|discriminate].
    apply (IH (fun s a s' Hin => Hstep s a s' (or_intror Hin)) s1 s');
      [|exact H].
    now apply (Hstep s a s1); [left| |].
Qed.

Lemma FOP_snoc {A : Type} (R : A -> A -> Prop) (l : list A) (x : A) :
  ForallOrdPairs R l -> Forall (fun a => R a x) l ->
  ForallOrdPairs R (l ++ [x]).
Proof.
  induction 1 as [|a l Ha _ IH]; intros Hx; simpl.
  - constructor; constructor.
  - inversion Hx; subst. constructor; [|now apply IH].
    apply Forall_app. split; [exact Ha | now constructor].
Qed.

Lemma dict_insert_keys_fresh k0 d k v :
  Forall (fun b : pyobj * pyobj => Py.eq k0 (fst b) = false) d ->
  Py.eq k0 k = false ->
  Forall (fun b : pyobj * pyobj => Py.eq k0 (fst b) = false)
         (Py.dict_insert d k v).
Proof.
  induction 1 as [|[k' v'] d Hk' Hd IH]; intros Hk; simpl.
  - now repeat constructor.
  - destruct (Py.eq k' k); constructor;
      solve [exact Hk' | exact Hd | now apply IH].
Qed.

Lemma dict_insert_distinct d k v :
  ForallOrdPairs (fun a b : pyobj * pyobj => Py.eq (fst a) (fst b) = false) d ->
  ForallOrdPairs (fun a b : pyobj * pyobj => Py.eq (fst a) (fst b) = false)
                 (Py.dict_insert d k v).
Proof.
  induction 1 as [|[k' v'] d Hk' Hd IH]; simpl.
  - repeat constructor.
  - destruct (Py.eq k' k) eqn:E.
    + constructor; [exact Hk' | exact Hd].
    + constructor; [|exact IH]. now apply dict_insert_keys_fresh.
Qed.

Lemma enum_lookup_ok cls members v r :
  Py.enum_lookup cls members v = Ok r ->
  exists n mv, In (n, mv) members /\ r = VEnum cls n mv /\ Py.eq mv v = true.
Proof.
  induction members as [|[n mv] ms IH]; simpl; [discriminate|].
  destruct (Py.eq mv v) eqn:E.
  - intros H. inversion H; subst. exists n, mv. auto.
  - intros H. destruct (IH H) as (n' & mv' & Hin & Hr & He).
    exists n', mv'. auto.
Qed.

Lemma enum_lookup_first cls pre n mv post v :
  Forall (fun m : string * pyobj => Py.eq (snd m) v = false) pre ->
  Py.eq mv v = true ->
  Py.enum_lookup cls (pre ++ (n, mv) :: post) v = Ok (VEnum cls n mv).
Proof.
  induction 1 as [|[n' mv'] pre Hm _ IH]; intros Hv; simpl.
  - now rewrite Hv.
  - simpl in Hm. rewrite Hm. now apply IH.
Qed.

Lemma enum_lookup_none cls members v :
  (forall n mv, In (n, mv) members -> Py.eq mv v = false) ->
  Py.enum_lookup cls members v = Raise (ValueError (MsgInvalidEnum v cls)).
Proof.
  induction members as [|[n mv] ms IH]; simpl; intros H; [reflexivity|].
  rewrite (H n mv (or_introl eq_refl)). apply IH.
  intros n' mv' Hin. apply (H n' mv'). now right.
Qed.

Section ContainerProperties.

Variable fromisoformat : string -> option (Z * Z).

Lemma decode_TList self value vs arg_type :
  as_tuple_list_set value = Some vs ->
  _build_value fromisoformat self value (TList arg_type)
  = (l <- mapM (fun v => _build_value fromisoformat self v arg_type) vs ;;
     Ok (VList l)).
Proof. destruct value; intros H; try discriminate H; now inversion H. Qed.

Lemma decode_TTupleVar self value vs arg_type :
  as_tuple_list value = Some vs ->
  _build_value fromisoformat self value (TTupleVar arg_type)
  = (l <- mapM (fun v => _build_value fromisoformat self v arg_type) vs ;;
     Ok (VTuple l)).
Proof. destruct value; intros H; try discriminate H; now inversion H. Qed.

Lemma decode_TSet self value vs arg_type :
  as_tuple_list_set value = Some vs ->
  _build_value fromisoformat self value (TSet arg_type)
  = (s <- foldM (fun s v => x <- _build_value fromisoformat self v arg_type ;;
                            Py.set_add s x) [] vs ;;
     Ok (VSet s)).
Proof. destruct value; intros H; try discriminate H; now inversion H. Qed.

(** X11.  A [NewType] is transparent: a value decodes against it exactly
    as it decodes against its supertype. *)
Theorem newtype_transparent :
  forall self value name supertype,
  _build_value fromisoformat self value (TNewType name supertype)
  = _build_value fromisoformat self value supertype.
Proof.
  intros self value name supertype.
  destruct value; try reflexivity. now rewrite !decode_VData.
Qed.

(** X12.  A list, a tuple or a set decodes against [List[T]] to a list
    exactly when each element decodes against [T]: the result has the
    decoded elements, in order and as many; the same holds of a list or a
    tuple against [Tuple[T, ...]], which gives a tuple. *)
Theorem sequence_elementwise :
  forall self value vs arg_type r,
  (as_tuple_list_set value = Some vs ->
   (_build_value fromisoformat self value (TList arg_type) = Ok r <->
    exists l, r = VList l
      /\ Forall2 (fun v x => _build_value fromisoformat self v arg_type = Ok x)
                 vs l))
  /\ (as_tuple_list value = Some vs ->
      (_build_value fromisoformat self value (TTupleVar arg_type) = Ok r <->
       exists l, r = VTuple l
         /\ Forall2
              (fun v x => _build_value fromisoformat self v arg_type = Ok x)
              vs l)).
Proof.
  intros self value vs arg_type r. split; intros Hv.
  - rewrite (decode_TList _ _ _ _ Hv). split.
    + destruct (mapM _ vs) as [l|e] eqn:E; cbn [bind]; [|discriminate].
      intros H. inversion H; subst. exists l. split; [reflexivity|].
      now apply mapM_Forall2.
    + intros (l & -> & H). apply mapM_Forall2 in H. now rewrite H.
  - rewrite (decode_TTupleVar _ _ _ _ Hv). split.
    + destruct (mapM _ vs) as [l|e] eqn:E; cbn [bind]; [|discriminate].
      intros H. inversion H; subst. exists l. split; [reflexivity|].
      now apply mapM_Forall2.
    + intros (l & -> & H). apply mapM_Forall2 in H. now rewrite H.
Qed.

(** X13.  Against [List[T]] the first element that fails decides: its
    exception is raised and the elements after it are not looked at.  A
    value that is neither a list, a tuple, a set nor a dataclass instance
    (a string, a mapping, a number) is not taken apart: it raises the
    value error of the last resort. *)
Theorem list_failures :
  forall self value arg_type,
  (forall pre v post e,
     as_tuple_list_set value = Some (pre ++ v :: post)%list ->
     Forall (fun p => exists x,
               _build_value fromisoformat self p arg_type = Ok x) pre ->
     _build_value fromisoformat self v arg_type = Raise e ->
     _build_value fromisoformat self value (TList arg_type) = Raise e)
  /\ (as_tuple_list_set value = None -> Py.is_dataclass value = false ->
      _build_value fromisoformat self value (TList arg_type)
      = Raise (ValueError (MsgNotFit value (TList arg_type)))).
Proof.
  intros self value arg_type. split.
  - intros pre v post e Hv Hpre He. rewrite (decode_TList _ _ _ _ Hv).
    now rewrite (mapM_first_raise _ pre v post e Hpre He).
  - destruct value; intros H1 H2; try reflexivity; discriminate.
Qed.

(** X14.  A set that is returned against [Set[T]] holds hashable values,
    no two of them equal, each the decoding of an element of the raw
    sequence. *)
Theorem set_distinct :
  forall self value vs arg_type r,
  as_tuple_list_set value = Some vs ->
  _build_value fromisoformat self value (TSet arg_type) = Ok r ->
  exists s,
    r = VSet s
    /\ Forall (fun x => Py.hashable x = true) s
    /\ ForallOrdPairs (fun a b => Py.eq b a = false) s
    /\ Forall (fun x => exists v,
                 In v vs
                 /\ _build_value fromisoformat self v arg_type = Ok x) s.
Proof.
  intros self value vs arg_type r Hv. rewrite (decode_TSet _ _ _ _ Hv).
  destruct (foldM _ [] vs) as [s|e] eqn:E; cbn [bind]; [|discriminate].
  intros H. inversion H; subst. exists s. split; [reflexivity|].
  revert E. apply (foldM_invariant _
    (fun s => Forall (fun x => Py.hashable x = true) s
              /\ ForallOrdPairs (fun a b => Py.eq b a = false) s
              /\ Forall (fun x => exists v, In v vs /\
                   _build_value fromisoformat self v arg_type = Ok x) s)).
  - intros s0 a s1 Ha (H1 & H2 & H3) Hs.
    destruct (_build_value fromisoformat self a arg_type) as [x|e] eqn:Ex;
      cbn [bind] in Hs; [|discriminate].
    unfold Py.set_add in Hs. destruct (Py.hashable x) eqn:Hh; [|discriminate].
    inversion Hs; subst.
    destruct (Py.contains s0 x) eqn:Hc; [now repeat split|].
    split; [|split].
    + apply Forall_app. split; [exact H1 | now constructor].
    + apply FOP_snoc; [exact H2|].
      apply Forall_forall. intros y Hy.
      unfold Py.contains in Hc.
      destruct (Py.eq x y) eqn:Exy; [|reflexivity].
      assert (existsb (fun a0 => Py.eq x a0) s0 = true)
        by (apply existsb_exists; now exists y).
      congruence.
    + apply Forall_app. split; [exact H3|]. constructor; [|constructor].
      now exists a.
  - repeat split; constructor.
Qed.

(** X15.  The mapping that is returned for a raw mapping against
    [Dict[K, V]] has string keys only, no two of them equal. *)
Theorem dict_string_keys :
  forall self items key_type value_type r,
  _build_value fromisoformat self (VDict items) (TDict key_type value_type)
  = Ok r ->
  exists d,
    r = VDict d
    /\ Forall (fun kv => Py.is_str (fst kv) = true) d
    /\ ForallOrdPairs (fun a b => Py.eq (fst a) (fst b) = false) d.
Proof.
  intros self items key_type value_type r.
  change (_build_value fromisoformat self (VDict items)
            (TDict key_type value_type))
    with (d <- foldM (fun d kv =>
                 k <- _build_value fromisoformat self (fst kv) key_type ;;
                 v <- _build_value fromisoformat self (snd kv) value_type ;;
                 Py.dict_setitem d k v) [] items ;;
          Py.dict_kwargs d).
  destruct (foldM _ [] items) as [d|e] eqn:E; cbn [bind]; [|discriminate].
  unfold Py.dict_kwargs.
  destruct (forallb _ d) eqn:Hs; [|discriminate].
  intros H. inversion H; subst. exists d. split; [reflexivity|].
  split; [apply Forall_forall; intros kv Hin;
          now apply (proj1 (forallb_forall _ d) Hs)|].
  revert E. apply (foldM_invariant _
    (ForallOrdPairs
       (fun a b : pyobj * pyobj => Py.eq (fst a) (fst b) = false))).
  - intros d0 kv d1 _ Hd Hstep.
    destruct (_build_value fromisoformat self (fst kv) key_type) as [k|e];
      cbn [bind] in Hstep; [|discriminate].
    destruct (_build_value fromisoformat self (snd kv) value_type) as [v|e];
      cbn [bind] in Hstep; [|discriminate].
    unfold Py.dict_setitem in Hstep.
    destruct (Py.hashable k); [|discriminate].
    inversion Hstep; subst. now apply dict_insert_distinct.
  - constructor.
Qed.

End ContainerProperties.

(** ** Enums, scalars and temporal values *)

Section ScalarProperties.

Variable fromisoformat : string -> option (Z * Z).

(** X16.  A raw value that is neither a member of the enum itself nor a
    dataclass instance decodes against the enum to the member whose
    underlying value equals it: the first such member in declaration
    order, and a value error when there is none. *)
Theorem enum_by_value :
  forall self raw name members,
  Py.is_dataclass raw = false ->
  (forall n mv, raw <> VEnum name n mv) ->
  (forall r,
     _build_value fromisoformat self raw (TEnum name members) = Ok r ->
     exists n mv, In (n, mv) members /\ r = VEnum name n mv
                  /\ Py.eq mv raw = true)
  /\ ((forall n mv, In (n, mv) members -> Py.eq mv raw = false) ->
      _build_value fromisoformat self raw (TEnum name members)
      = Raise (ValueError (MsgInvalidEnum raw name)))
  /\ (forall pre n mv post,
        members = (pre ++ (n, mv) :: post)%list ->
        Forall (fun m => Py.eq (snd m) raw = false) pre ->
        Py.eq mv raw = true ->
        _build_value fromisoformat self raw (TEnum name members)
        = Ok (VEnum name n mv)).
Proof.
  intros self raw name members Hd Hm.
  rewrite (decode_TEnum fromisoformat self raw name members Hd).
  assert (E : Py.enum_call name members raw = Py.enum_lookup name members raw).
  { destruct raw; try reflexivity. cbn [Py.enum_call].
    destruct (String.eqb cls name) eqn:Ec; [|reflexivity].
    apply String.eqb_eq in Ec. subst cls. now elim (Hm name0 raw). }
  rewrite E. split; [|split].
  - intros r. apply enum_lookup_ok.
  - apply enum_lookup_none.
  - intros pre n mv post ->. apply enum_lookup_first.
Qed.

(** X17.  The basic classes accept only values of their own kind: a
    string is never turned into a number, a float never into an int, an
    int never into a bool; [int] also takes a bool and [float] an int or
    a bool.  Against [int], [str], [bool] or [bytes] any other value,
    dataclass instances apart, raises the value error of the last
    resort. *)
Theorem basic_types_exact :
  forall self v r,
  Py.is_dataclass v = false ->
  (_build_value fromisoformat self v TInt = Ok r ->
   (exists z, v = VInt z /\ r = VInt z)
   \/ (exists b, v = VBool b /\ r = VInt (Z.b2z b)))
  /\ (_build_value fromisoformat self v TStr = Ok r ->
      exists s, v = VStr s /\ r = VStr s)
  /\ (_build_value fromisoformat self v TBool = Ok r ->
      exists b, v = VBool b /\ r = VBool b)
  /\ (_build_value fromisoformat self v TBytes = Ok r ->
      exists b, v = VBytes b /\ r = VBytes b)
  /\ (_build_value fromisoformat self v TFloat = Ok r ->
      (exists f, v = VFloat f /\ r = VFloat f)
      \/ (exists z, v = VInt z) \/ (exists b, v = VBool b))
  /\ (forall cls e,
        In cls [TInt; TStr; TBool; TBytes] ->
        _build_value fromisoformat self v cls = Raise e ->
        e = ValueError (MsgNotFit v cls)).
Proof.
  intros self v r Hd.
  split; [|split; [|split; [|split; [|split]]]].
  - destruct v; try discriminate Hd; intros H; try discriminate H;
      inversion H; subst; [right | left]; eexists; split; reflexivity.
  - destruct v; try discriminate Hd; intros H; try discriminate H;
      inversion H; subst; eexists; split; reflexivity.
  - destruct v; try discriminate Hd; intros H; try discriminate H;
      inversion H; subst; eexists; split; reflexivity.
  - destruct v; try discriminate Hd; intros H; try discriminate H;
      inversion H; subst; eexists; split; reflexivity.
  - destruct v; try discriminate Hd; intros H; try discriminate H.
    + right. right. now eexists.
    + right. left. now eexists.
    + inversion H; subst. left. eexists; split; reflexivity.
  - intros cls e [<-|[<-|[<-|[<-|[]]]]]; destruct v;
      try discriminate Hd; intros H; try discriminate H; now inversion H.
Qed.

(** X18.  An ISO string against [date] is parsed as a datetime and cut to
    its day, so whenever it decodes against [datetime] it decodes against
    [date] to the day of that datetime; a string that does not parse
    raises a value error against both.  A datetime object against [date]
    is returned whole, and a date object against [datetime] is refused. *)
Theorem temporal_decoding :
  forall self,
  (forall s d t,
     _build_value fromisoformat self (VStr s) TDatetime = Ok (VDatetime d t) ->
     _build_value fromisoformat self (VStr s) TDate = Ok (VDate d))
  /\ (forall s, fromisoformat s = None ->
        _build_value fromisoformat self (VStr s) TDate
        = Raise (ValueError (MsgIsoformat s))
        /\ _build_value fromisoformat self (VStr s) TDatetime
           = Raise (ValueError (MsgIsoformat s)))
  /\ (forall d t,
        _build_value fromisoformat self (VDatetime d t) TDate
        = Ok (VDatetime d t))
  /\ (forall d,
        _build_value fromisoformat self (VDate d) TDatetime
        = Raise (ValueError (MsgNotFit (VDate d) TDatetime))).
Proof.
  intros self. split; [|split; [|split]]; try reflexivity.
  - intros s d t. cbn. unfold parse_iso.
    destruct (fromisoformat s) as [[d' t']|]; cbn; [|discriminate].
    intros H. now inversion H.
  - intros s Hs. cbn. unfold parse_iso. rewrite Hs. now split.
Qed.

(** X19.  Values that decode to themselves stay so inside a container: a
    list of them decodes to itself against [List[T]], and a tuple of them
    against [Tuple[T, ...]] and, type by type, against a tuple of fixed
    arity; against [List[Any]] every list is returned as it is, and a
    tuple or a set as the list of its elements. *)
Theorem container_idempotent :
  forall self,
  (forall vs arg_type,
     Forall (fun v => _build_value fromisoformat self v arg_type = Ok v) vs ->
     _build_value fromisoformat self (VList vs) (TList arg_type) = Ok (VList vs)
     /\ _build_value fromisoformat self (VTuple vs) (TTupleVar arg_type)
        = Ok (VTuple vs))
  /\ (forall vs ts,
        Forall2 (fun v t => _build_value fromisoformat self v t = Ok v) vs ts ->
        _build_value fromisoformat self (VTuple vs) (TTuple ts)
        = Ok (VTuple vs))
  /\ (forall value vs,
        as_tuple_list_set value = Some vs ->
        _build_value fromisoformat self value (TList TAny) = Ok (VList vs)).
Proof.
  intros self. split; [|split].
  - intros vs arg_type H.
    rewrite (decode_TList fromisoformat self (VList vs) vs arg_type eq_refl).
    rewrite (decode_TTupleVar fromisoformat self (VTuple vs) vs arg_type
               eq_refl).
    rewrite (mapM_fixed _ vs H). now split.
  - intros vs ts H. rewrite decode_TTuple_tuple, zipped_combine.
    assert (E : mapM (fun vt =>
                        _build_value fromisoformat self (fst vt) (snd vt))
                     (combine vs ts) = Ok vs).
    { induction H as [|v t vs ts Hv _ IH]; [reflexivity|].
      cbn [combine mapM fst snd]. now rewrite Hv, IH. }
    now rewrite E.
  - intros value vs Hv. rewrite (decode_TList fromisoformat _ _ _ _ Hv).
    rewrite mapM_fixed; [reflexivity|].
    apply Forall_forall. intros v _. destruct v; reflexivity.
Qed.

End ScalarProperties.

(** ** The entry point *)

(** X20.  A message that is already a mapping is decoded as it is and
    never given to the JSON parser.  Any other message is parsed first:
    an exception of the parser is the result; a text that denotes a
    mapping decodes as that mapping does; a text that denotes anything
    else raises the value error of [build_dataclass]. *)
Theorem parse_raw_message :
  forall fromisoformat name fields defaults allow,
  (forall json_loads json_loads' items,
     parse_raw fromisoformat json_loads (VDict items) name fields defaults allow
     = parse_raw fromisoformat json_loads' (VDict items)
         name fields defaults allow)
  /\ (forall json_loads message e,
        (forall items, message <> VDict items) ->
        json_loads message = Raise e ->
        parse_raw fromisoformat json_loads message name fields defaults allow
        = Raise e)
  /\ (forall json_loads message items,
        (forall items', message <> VDict items') ->
        json_loads message = Ok (VDict items) ->
        parse_raw fromisoformat json_loads message name fields defaults allow
        = parse_raw fromisoformat json_loads (VDict items)
            name fields defaults allow)
  /\ (forall json_loads message parsed,
        (forall items, message <> VDict items) ->
        json_loads message = Ok parsed ->
        (forall items, parsed <> VDict items) ->
        parse_raw fromisoformat json_loads message name fields defaults allow
        = Raise (ValueError MsgNotDict)).
Proof.
  intros fromisoformat name fields defaults allow.
  split; [reflexivity|]. split; [|split].
  - intros json_loads message e Hm He. unfold parse_raw.
    destruct message; try (now rewrite He). now elim (Hm items).
  - intros json_loads message items Hm Hp. unfold parse_raw.
    destruct message; try (now rewrite Hp). now elim (Hm items0).
  - intros json_loads message parsed Hm Hp Hn. unfold parse_raw.
    destruct message; try (rewrite Hp; cbn [bind]);
      try (destruct parsed; try reflexivity; now elim (Hn items)).
    now elim (Hm items).
Qed.

(** ** The style and the source of a PDF frame *)

Lemma sdict_insert_prefix d k v :
  exists extra,
    map fst (Py.sdict_insert d k v) = (map fst d ++ extra)%list.
Proof.
  induction d as [|[k' v'] d (extra & IH)]; simpl.
  - now exists [k].
  - destruct (String.eqb k' k); simpl.
    + exists []. now rewrite app_nil_r.
    + exists extra. now rewrite IH.
Qed.

Lemma style_fold_prefix st d :
  exists extra,
    map fst (fold_left (fun d kv => Py.sdict_insert d (fst kv) (snd kv)) st d)
    = (map fst d ++ extra)%list.
Proof.
  revert d. induction st as [|[k v] st IH]; intros d; simpl.
  - exists []. now rewrite app_nil_r.
  - destruct (IH (Py.sdict_insert d k v)) as (e1 & H1).
    destruct (sdict_insert_prefix d k v) as (e2 & H2).
    exists (e2 ++ e1)%list. now rewrite H1, H2, app_assoc.
Qed.

Lemma style_fold_get st d k :
  NoDup (map fst st) ->
  Py.sdict_get
    (fold_left (fun d kv => Py.sdict_insert d (fst kv) (snd kv)) st d) k
  = match Py.sdict_get st k with
    | Some v => Some v
    | None => Py.sdict_get d k
    end.
Proof.
  revert d. induction st as [|[k0 v0] st IH]; intros d Hnd; [reflexivity|].
  inversion Hnd as [|? ? Hn Hd]; subst.
  cbn [fold_left fst snd Py.sdict_get]. rewrite (IH _ Hd), sdict_get_insert.
  destruct (String.eqb k0 k) eqn:E; [|reflexivity].
  apply String.eqb_eq in E. subst k0.
  now rewrite (proj2 (sdict_get_None st k) Hn).
Qed.

(** X21.  In the style of the frame an entry of the caller's [style] wins
    over the defaults and over the [width] and [height] arguments; a
    property that [style] does not set keeps its default or its argument;
    the three default properties always come first, in their order. *)
Theorem pdf_style_override :
  forall width height st k,
  NoDup (map fst st) ->
  Py.sdict_get (Pdf.style_dict width height (Some st)) k
  = match Py.sdict_get st k with
    | Some v => Some v
    | None =>
        Py.sdict_get
          [("border-radius", VStr "4px"); ("width", width);
           ("height", height)] k
    end
  /\ firstn 3 (map fst (Pdf.style_dict width height (Some st)))
     = ["border-radius"; "width"; "height"]
  /\ Pdf.style_dict width height None
     = [("border-radius", VStr "4px"); ("width", width); ("height", height)].
Proof.
  intros width height st k Hnd. unfold Pdf.style_dict.
  split; [now apply style_fold_get|]. split; [|reflexivity].
  destruct (style_fold_prefix st
              [("border-radius", VStr "4px"); ("width", width);
               ("height", height)]) as (extra & ->).
  reflexivity.
Qed.

(** The initial page only reaches the frame of a URL, as a fragment
    added after the URL; for a path or a file-like object the frame is
    that of the virtual file of the bytes, the same whatever the initial
    page and whichever of the two the source is. *)
Lemma pdf_initial_page :
  forall (virtual_file_url : list ascii -> string) (Html : Type)
         (iframe : string -> list (string * pyobj) -> Html)
         width height style,
  (forall content page page',
     Pdf.pdf virtual_file_url Html iframe (Pdf.FilePath content) page
       width height style
     = Pdf.pdf virtual_file_url Html iframe (Pdf.Stream content) page'
         width height style)
  /\ (forall url page,
        Pdf.resolved_src virtual_file_url (Pdf.Url url) page
        = (url ++ match page with
                  | Some n => "#page=" ++ Pdf.str_of_int n ++ "&view=FitV"
                  | None => ""
                  end)%string).
Proof.
  intros. split.
  - intros content [page|] [page'|]; reflexivity.
  - intros url [n|]; cbn [Pdf.resolved_src]; [reflexivity|].
    induction url as [|c url IH]; [reflexivity|]. simpl. now rewrite <- IH.
Qed.

(** ** The data-table records *)

Lemma contains_strings (strs : list string) (t : string) :
  Py.contains (map VStr strs) (VStr t) = Py.mem t strs.
Proof.
  unfold Py.contains, Py.mem. induction strs as [|s strs IH]; [reflexivity|].
  cbn [map existsb]. rewrite IH. reflexivity.
Qed.

Lemma decode_string_literal fromisoformat self t first rest :
  _build_value fromisoformat self (VStr t)
    (TLiteral (VStr first) (map VStr rest))
  = if Py.mem t (first :: rest) then Ok (VStr t)
    else Raise (ValueError (MsgNotFitLiteral (VStr t))).
Proof.
  rewrite decode_TLiteral by reflexivity.
  assert (E : single_enum_literal (VStr first) (map VStr rest) (VStr t) = false)
    by (unfold single_enum_literal; now destruct (map VStr rest)).
  rewrite E.
  change (VStr first :: map VStr rest) with (map VStr (first :: rest)).
  rewrite contains_strings. now destruct (Py.mem t (first :: rest)).
Qed.

Lemma mem_false (k : string) (keys : list string) :
  ~ In k keys -> Py.mem k keys = false.
Proof.
  intros H. destruct (Py.mem k keys) eqn:E; [|reflexivity].
  apply mem_In in E. contradiction.
Qed.

(** X22.  A column message with the keys [name], [type], [externalType]
    and [sampleValues] decodes to the [DataTableColumn] of these values,
    the samples unchanged, when [type] is one of the eight data types;
    with any other [type] it raises the value error of the literal. *)
Theorem data_table_column_message :
  forall fromisoformat self n t e vs,
  let message :=
    str_dict [("name", VStr n); ("type", VStr t);
              ("externalType", VStr e); ("sampleValues", VList vs)] in
  let data_types :=
    ["string"; "boolean"; "integer"; "number"; "date"; "datetime"; "time";
     "unknown"] in
  (In t data_types ->
   build_dataclass fromisoformat self message
     "DataTableColumn" Models.DataTableColumn_fields []
   = Ok (VData "DataTableColumn"
           [("name", VStr n); ("type", VStr t);
            ("external_type", VStr e); ("sample_values", VList vs)]))
  /\ (~ In t data_types ->
      build_dataclass fromisoformat self message
        "DataTableColumn" Models.DataTableColumn_fields []
      = Raise (ValueError (MsgNotFitLiteral (VStr t)))).
Proof.
  intros fromisoformat self n t e vs message data_types.
  assert (Hs : forall vs',
             _build_value fromisoformat self (VList vs') (TList TAny)
             = Ok (VList vs')).
  { intros vs'.
    rewrite (decode_TList fromisoformat self (VList vs') vs' TAny eq_refl).
    rewrite mapM_fixed; [reflexivity|].
    apply Forall_forall. intros v _. destruct v; reflexivity. }
  assert (E : build_dataclass fromisoformat self message
                "DataTableColumn" Models.DataTableColumn_fields []
              = (x <- _build_value fromisoformat self (VStr t)
                       Models.DataType ;;
                 Ok (VData "DataTableColumn"
                       [("name", VStr n); ("type", x);
                        ("external_type", VStr e);
                        ("sample_values", VList vs)]))).
  { unfold message. rewrite decode_record_str_dict.
    change (snake_fold _ [])
      with [("name", VStr n); ("type", VStr t); ("external_type", VStr e);
            ("sample_values", VList vs)].
    cbv zeta.
    change (forallb _ _) with true. rewrite andb_false_r.
    cbn [transform build_field Models.DataTableColumn_fields String.eqb
         Ascii.eqb Bool.eqb].
    rewrite Hs.
    destruct (_build_value fromisoformat self (VStr t) Models.DataType);
      reflexivity. }
  rewrite E.
  change Models.DataType
    with (TLiteral (VStr "string")
            (map VStr ["boolean"; "integer"; "number"; "date"; "datetime";
                       "time"; "unknown"])).
  rewrite decode_string_literal. fold data_types. split; intros H.
  - now rewrite (proj2 (mem_In t data_types) H).
  - now rewrite (mem_false t data_types H).
Qed.

Lemma decode_opt_int fromisoformat self o :
  _build_value fromisoformat self (opt_int o) (Optional TInt) = Ok (opt_int o).
Proof. destruct o; reflexivity. Qed.

(** X23.  A table message with the keys [sourceType], [source], [name],
    [numRows], [numColumns], [variableName] and [columns] decodes to the
    [DataTable] of these values when the source type is one of the three
    table sources, the variable name decodes and every column decodes:
    the row and column counts may be null, the columns are the decoded
    columns in order, and [engine], which the message omits, is bound to
    its default [None]. *)
Theorem data_table_message :
  forall fromisoformat self VariableName st s n nr nc vn vn' cols cols',
  In st ["local"; "duckdb"; "connection"] ->
  _build_value fromisoformat self vn (Optional VariableName) = Ok vn' ->
  Forall2 (fun c c' =>
             _build_value fromisoformat self c Models.DataTableColumn = Ok c')
          cols cols' ->
  build_dataclass fromisoformat self
    (str_dict [("sourceType", VStr st); ("source", VStr s); ("name", VStr n);
               ("numRows", opt_int nr); ("numColumns", opt_int nc);
               ("variableName", vn); ("columns", VList cols)])
    "DataTable" (Models.DataTable_fields VariableName) Models.DataTable_defaults
  = Ok (VData "DataTable"
          [("source_type", VStr st); ("source", VStr s); ("name", VStr n);
           ("num_rows", opt_int nr); ("num_columns", opt_int nc);
           ("variable_name", vn'); ("columns", VList cols');
           ("engine", VNone)]).
Proof.
  intros fromisoformat self VariableName st s n nr nc vn vn' cols cols'
    Hst Hvn Hcols.
  assert (Hsrc : _build_value fromisoformat self (VStr st)
                   Models.DataTableSource = Ok (VStr st)).
  { change Models.DataTableSource
      with (TLiteral (VStr "local") (map VStr ["duckdb"; "connection"])).
    rewrite decode_string_literal. now rewrite (proj2 (mem_In _ _) Hst). }
  assert (Hc : _build_value fromisoformat self (VList cols)
                 (TList Models.DataTableColumn) = Ok (VList cols')).
  { rewrite (decode_TList fromisoformat self (VList cols) cols _ eq_refl).
    apply mapM_Forall2 in Hcols. now rewrite Hcols. }
  rewrite decode_record_str_dict.
  change (snake_fold _ [])
    with [("source_type", VStr st); ("source", VStr s); ("name", VStr n);
          ("num_rows", opt_int nr); ("num_columns", opt_int nc);
          ("variable_name", vn); ("columns", VList cols)].
  cbv zeta.
  change (forallb _ _) with true. rewrite andb_false_r.
  cbn [transform build_field Models.DataTable_fields String.eqb
       Ascii.eqb Bool.eqb].
  rewrite Hsrc, !decode_opt_int, Hvn, Hc.
  reflexivity.
Qed.

Lemma data_table_message_witness :
  build_dataclass iso_none strict
    (str_dict [("sourceType", VStr "duckdb"); ("source", VStr "memory");
               ("name", VStr "t"); ("numRows", VInt 2); ("numColumns", VNone);
               ("variableName", VStr "df");
               ("columns",
                VList [str_dict [("name", VStr "a"); ("type", VStr "integer");
                                 ("externalType", VStr "i64");
                                 ("sampleValues", VList [VInt 1])]])])
    "DataTable" (Models.DataTable_fields TStr) Models.DataTable_defaults
  = Ok (VData "DataTable"
          [("source_type", VStr "duckdb"); ("source", VStr "memory");
           ("name", VStr "t"); ("num_rows", VInt 2); ("num_columns", VNone);
           ("variable_name", VStr "df");
           ("columns",
            VList [VData "DataTableColumn"
                     [("name", VStr "a"); ("type", VStr "integer");
                      ("external_type", VStr "i64");
                      ("sample_values", VList [VInt 1])]]);
           ("engine", VNone)]).
Proof.
  apply (data_table_message iso_none strict TStr "duckdb" "memory" "t"
           (Some 2) None (VStr "df") (VStr "df")).
  - right. left. reflexivity.
  - reflexivity.
  - constructor; [reflexivity | constructor].
Defined.

Lemma data_table_column_message_witness :
  build_dataclass iso_none strict
    (str_dict [("name", VStr "a"); ("type", VStr "date");
               ("externalType", VStr "date32"); ("sampleValues", VList [])])
    "DataTableColumn" Models.DataTableColumn_fields []
  = Ok (VData "DataTableColumn"
          [("name", VStr "a"); ("type", VStr "date");
           ("external_type", VStr "date32"); ("sample_values", VList [])])
  /\ build_dataclass iso_none strict
       (str_dict [("name", VStr "a"); ("type", VStr "decimal");
                  ("externalType", VStr "d"); ("sampleValues", VList [])])
       "DataTableColumn" Models.DataTableColumn_fields []
     = Raise (ValueError (MsgNotFitLiteral (VStr "decimal"))).
Proof.
  split.
  - apply (data_table_column_message iso_none strict "a" "date" "date32" []).
    simpl. tauto.
  - apply (data_table_column_message iso_none strict "a" "decimal" "d" []).
    simpl. intros H. repeat destruct H as [H|H]; try discriminate H. exact H.
Defined.

(** ** The further properties at concrete inputs *)

Lemma later_key_wins_witness :
  build_dataclass iso_none strict
    (str_dict [("someField", VStr "bad"); ("some_field", VInt 1)])
    "R" [("some_field", TInt)] []
  = build_dataclass iso_none strict (str_dict [("some_field", VInt 1)])
      "R" [("some_field", TInt)] [].
Proof.
  apply (later_key_wins iso_none strict [] "someField" (VStr "bad")
           "some_field" (VInt 1) []); reflexivity.
Defined.

Lemma private_keys_ignored_witness :
  build_dataclass iso_none strict
    (str_dict [("a", VInt 1); ("_meta", VStr "x")]) "R" [("a", TInt)] []
  = build_dataclass iso_none strict (str_dict [("a", VInt 1)])
      "R" [("a", TInt)] [].
Proof.
  apply (private_keys_ignored iso_none strict [("a", VInt 1)] "_meta"
           (VStr "x") []). reflexivity.
Defined.

Lemma to_snake_letters_witness :
  without_underscores (to_snake "someHTTPField")
  = without_underscores (lower_all "someHTTPField").
Proof. apply to_snake_letters. reflexivity. Defined.

Lemma normalized_message_same_witness :
  build_dataclass iso_none strict
    (str_dict [("someField", VInt 1); ("_meta", VNone)])
    "R" [("some_field", TInt)] []
  = build_dataclass iso_none strict
      (str_dict (normalized_items [("someField", VInt 1); ("_meta", VNone)]))
      "R" [("some_field", TInt)] [].
Proof.
  apply normalized_message_same. repeat constructor.
Defined.

Lemma decoded_record_shape_witness :
  (exists bound,
      VData "R" [("a", VInt 0)] = VData "R" bound /\ map fst bound = ["a"])
  /\ (exists bound,
        VData "R" [("a", VInt 0)] = VData "R" bound /\ map fst bound = ["a"]).
Proof.
  destruct (decoded_record_shape iso_none json_example strict false
              (str_dict [("a", VInt 0)]) "R" [("a", TInt)] []
              (VData "R" [("a", VInt 0)])) as (Hb & Hp).
  split; [apply Hb | apply Hp]; reflexivity.
Defined.

Lemma required_field_missing_witness :
  build_dataclass iso_none tolerant (str_dict [("b", VInt 1)])
    "R" [("a", TInt)] []
  <> Ok (VData "R" []).
Proof.
  apply (required_field_missing iso_none tolerant [("b", VInt 1)]
           "R" [("a", TInt)] [] "a").
  - left. reflexivity.
  - reflexivity.
  - intros [H|[]]. discriminate H.
Defined.

Lemma empty_message_witness :
  (exists bound,
      build_dataclass iso_none strict (VDict []) "R"
        [("a", TInt)] [("a", VInt 0)] = Ok (VData "R" bound)
      /\ map fst bound = ["a"]
      /\ forall n x, In (n, x) bound ->
                     Py.sdict_get [("a", VInt 0)] n = Some x)
  /\ build_dataclass iso_none strict (VDict []) "R"
       [("a", TInt); ("b", TStr)] [("a", VInt 0)]
     = Raise (TypeError (MsgMissingArgs "R" ["b"])).
Proof.
  split.
  - destruct (empty_message iso_none strict "R" [("a", TInt)] [("a", VInt 0)])
      as (Hall & _).
    apply Hall. reflexivity.
  - destruct (empty_message iso_none strict "R" [("a", TInt); ("b", TStr)]
                [("a", VInt 0)]) as (_ & Hmiss).
    apply Hmiss. discriminate.
Defined.

Lemma non_string_key_witness :
  build_dataclass iso_none strict (VDict [(VInt 1, VInt 2)])
    "R" [("a", TInt)] []
  = Raise (AttributeError (MsgNoStartswith (VInt 1)))
  /\ _build_value iso_none strict (VDict [(VInt 1, VInt 2)])
       (TUnion (TData "R" [("a", TInt)] []) [TAny])
     = Raise (AttributeError (MsgNoStartswith (VInt 1))).
Proof.
  apply (non_string_key iso_none strict [] (VInt 1) (VInt 2) []
           "R" [("a", TInt)] [] [TAny]); [reflexivity | discriminate].
Defined.

Lemma decoded_record_sound_witness :
  exists bound,
    VData "R" [("some_field", VInt 1); ("b", VNone)] = VData "R" bound
    /\ map fst bound = ["some_field"; "b"]
    /\ forall n x, In (n, x) bound ->
         exists t, In (n, t) [("some_field", TInt); ("b", TStr)]
           /\ match wire_value [("someField", VInt 1)] n with
              | Some v => _build_value iso_none strict v t = Ok x
              | None => Py.sdict_get [("b", VNone)] n = Some x
              end.
Proof.
  apply (decoded_record_sound iso_none strict [("someField", VInt 1)] "R"
           [("some_field", TInt); ("b", TStr)] [("b", VNone)]).
  - repeat constructor; simpl; intuition discriminate.
  - reflexivity.
Defined.

Lemma sequence_elementwise_witness :
  (exists l, VList [VInt 1] = VList l
     /\ Forall2 (fun v x => _build_value iso_none strict v TInt = Ok x)
                [VBool true] l)
  /\ _build_value iso_none strict (VList [VInt 1]) (TTupleVar TInt)
     = Ok (VTuple [VInt 1]).
Proof.
  split.
  - destruct (sequence_elementwise iso_none strict (VTuple [VBool true])
                [VBool true] TInt (VList [VInt 1])) as (Hl & _).
    apply (Hl eq_refl). reflexivity.
  - destruct (sequence_elementwise iso_none strict (VList [VInt 1])
                [VInt 1] TInt (VTuple [VInt 1])) as (_ & Ht).
    apply (Ht eq_refl). exists [VInt 1]. split; [reflexivity|].
    constructor; [reflexivity | constructor].
Defined.

Lemma list_failures_witness :
  _build_value iso_none strict (VList [VInt 1; VStr "a"; VInt 2]) (TList TInt)
  = Raise (ValueError (MsgNotFit (VStr "a") TInt))
  /\ _build_value iso_none strict (VStr "abc") (TList TStr)
     = Raise (ValueError (MsgNotFit (VStr "abc") (TList TStr))).
Proof.
  split.
  - destruct (list_failures iso_none strict (VList [VInt 1; VStr "a"; VInt 2])
                TInt) as (Hfirst & _).
    apply (Hfirst [VInt 1] (VStr "a") [VInt 2]); [reflexivity | | reflexivity].
    constructor; [|constructor]. eexists. reflexivity.
  - destruct (list_failures iso_none strict (VStr "abc") TStr) as (_ & Hnot).
    apply Hnot; reflexivity.
Defined.

Lemma set_distinct_witness :
  exists s,
    VSet [VInt 1; VInt 2] = VSet s
    /\ Forall (fun x => Py.hashable x = true) s
    /\ ForallOrdPairs (fun a b => Py.eq b a = false) s
    /\ Forall (fun x => exists v,
                 In v [VInt 1; VBool true; VInt 2]
                 /\ _build_value iso_none strict v TAny = Ok x) s.
Proof.
  apply (set_distinct iso_none strict (VList [VInt 1; VBool true; VInt 2])
           [VInt 1; VBool true; VInt 2] TAny); reflexivity.
Defined.

Lemma dict_string_keys_witness :
  exists d,
    VDict [(VStr "a", VInt 1)] = VDict d
    /\ Forall (fun kv => Py.is_str (fst kv) = true) d
    /\ ForallOrdPairs (fun a b => Py.eq (fst a) (fst b) = false) d.
Proof.
  apply (dict_string_keys iso_none strict [(VStr "a", VInt 1)] TStr TInt).
  reflexivity.
Defined.

Lemma enum_by_value_witness :
  (exists n mv,
      In (n, mv) [("RED", VStr "red"); ("ROUGE", VStr "red")]
      /\ VEnum "Color" "RED" (VStr "red") = VEnum "Color" n mv
      /\ Py.eq mv (VStr "red") = true)
  /\ _build_value iso_none strict (VStr "blue")
       (TEnum "Color" [("RED", VStr "red")])
     = Raise (ValueError (MsgInvalidEnum (VStr "blue") "Color"))
  /\ _build_value iso_none strict (VStr "red")
       (TEnum "Color" [("RED", VStr "red"); ("ROUGE", VStr "red")])
     = Ok (VEnum "Color" "RED" (VStr "red")).
Proof.
  split; [|split].
  - destruct (enum_by_value iso_none strict (VStr "red") "Color"
                [("RED", VStr "red"); ("ROUGE", VStr "red")] eq_refl)
      as (Hok & _); [discriminate|].
    apply Hok. reflexivity.
  - destruct (enum_by_value iso_none strict (VStr "blue") "Color"
                [("RED", VStr "red")] eq_refl) as (_ & Hnone & _);
      [discriminate|].
    apply Hnone. intros n mv [H|[]]. inversion H. reflexivity.
  - destruct (enum_by_value iso_none strict (VStr "red") "Color"
                [("RED", VStr "red"); ("ROUGE", VStr "red")] eq_refl)
      as (_ & _ & Hfirst); [discriminate|].
    apply (Hfirst [] "RED" (VStr "red") [("ROUGE", VStr "red")]);
      [reflexivity | constructor | reflexivity].
Defined.

Lemma basic_types_exact_witness :
  ((exists z, VBool true = VInt z /\ VInt 1 = VInt z)
   \/ (exists b, VBool true = VBool b /\ VInt 1 = VInt (Z.b2z b)))
  /\ ValueError (MsgNotFit (VStr "5") TInt)
     = ValueError (MsgNotFit (VStr "5") TInt).
Proof.
  destruct (basic_types_exact iso_none strict (VBool true) (VInt 1) eq_refl)
    as (Hint & _).
  destruct (basic_types_exact iso_none strict (VStr "5") VNone eq_refl)
    as (_ & _ & _ & _ & _ & Hraise).
  split; [apply Hint; reflexivity|].
  symmetry. apply (Hraise TInt); [left; reflexivity | reflexivity].
Defined.

Lemma temporal_decoding_witness :
  _build_value iso_day_one strict (VStr "2024-01-01T10:00:00") TDate
  = Ok (VDate 1)
  /\ _build_value iso_none strict (VStr "tomorrow") TDate
     = Raise (ValueError (MsgIsoformat "tomorrow")).
Proof.
  split.
  - destruct (temporal_decoding iso_day_one strict) as (Hcut & _).
    apply (Hcut "2024-01-01T10:00:00" 1 0). reflexivity.
  - destruct (temporal_decoding iso_none strict) as (_ & Hbad & _).
    apply Hbad. reflexivity.
Defined.

Lemma container_idempotent_witness :
  _build_value iso_none strict (VList [VInt 1; VInt 2]) (TList TInt)
  = Ok (VList [VInt 1; VInt 2])
  /\ _build_value iso_none strict (VTuple [VInt 1; VStr "a"])
       (TTuple [TInt; TStr])
     = Ok (VTuple [VInt 1; VStr "a"])
  /\ _build_value iso_none strict (VTuple [VNone; VStr "a"]) (TList TAny)
     = Ok (VList [VNone; VStr "a"]).
Proof.
  destruct (container_idempotent iso_none strict) as (Hlist & Htuple & Hany).
  split; [|split].
  - apply (Hlist [VInt 1; VInt 2] TInt). repeat constructor.
  - apply (Htuple [VInt 1; VStr "a"] [TInt; TStr]). repeat constructor.
  - apply Hany. reflexivity.
Defined.

Lemma parse_raw_message_witness :
  parse_raw iso_none json_example (VStr "{") "R" [] [] false
  = Raise (ValueError (MsgNotFit (VStr "{") TAny))
  /\ parse_raw iso_none json_example (VStr "{}") "R" [] [] false
     = parse_raw iso_none json_example (VDict []) "R" [] [] false
  /\ parse_raw iso_none json_example (VStr "[]") "R" [] [] false
     = Raise (ValueError MsgNotDict).
Proof.
  destruct (parse_raw_message iso_none "R" [] [] false)
    as (_ & Hraise & Hdict & Hother).
  split; [|split].
  - apply Hraise; [discriminate | reflexivity].
  - apply Hdict; [discriminate | reflexivity].
  - apply (Hother json_example (VStr "[]") (VList []));
      [discriminate | reflexivity | discriminate].
Defined.

Lemma pdf_style_override_witness :
  Py.sdict_get
    (Pdf.style_dict (VStr "100%") (VStr "70vh") (Some [("width", VInt 5)]))
    "width"
  = Some (VInt 5).
Proof.
  destruct (pdf_style_override (VStr "100%") (VStr "70vh") [("width", VInt 5)]
              "width") as (Hget & _).
  - repeat constructor. simpl. tauto.
  - rewrite Hget. reflexivity.
Defined.
